(** * Telegram channel preview to RSS: the extraction rules of [app.py]

    A shallow embedding of the extraction functions of [src/app.py]
    ([parse_image], [parse_reply], [parse_preview], [parse_feed],
    [parse_feeds], [parse_rss], [get_rss_feed]) over a small model of the
    BeautifulSoup tree they walk, with Python exceptions as an explicit
    result type.

    Conventions.
    - A Python [str] is a [string] holding its UTF-8 encoding, so every
      code point can be written; the characters the program looks for are
      ASCII, and UTF-8 keeps the order of the code points.
    - A parsed tree is a [Node]: a string leaf of one of the parser's string
      classes, or a tag with its name, its attributes in document order and
      its children.
    - A function that can raise returns a [result]; [None] is [option]. *)

From Stdlib Require Import String Ascii List Bool Arith Lia.
Import ListNotations.
Open Scope list_scope.
Open Scope string_scope.

(** ** Characters that cannot be written inside a literal *)

Definition dq : string := String (ascii_of_nat 34) EmptyString.
Definition nl_char : ascii := ascii_of_nat 10.
Definition nl : string := String nl_char EmptyString.

(** ** Python exceptions and the error monad *)

Inductive exn : Type :=
| KeyError (key : string)      (* tag[key] on a tag without that attribute *)
| TypeError                    (* None[key] *)
| AttributeError               (* None.attr *)
| RuntimeError                 (* raised on a response status other than 200 *)
| LibraryError (name : string).  (* an exception of a library, by class name *)

Inductive result (A : Type) : Type :=
| Ok (a : A)
| Raise (e : exn).

Arguments Ok {A} a.
Arguments Raise {A} e.

Definition bind {A B : Type} (r : result A) (k : A -> result B) : result B :=
  match r with
  | Ok a => k a
  | Raise e => Raise e
  end.

Notation "x <- r ;; k" := (bind r (fun x => k))
  (at level 61, r at next level, right associativity).

Definition raises {A : Type} (r : result A) : Prop := exists e, r = Raise e.

(** ** Strings: the [str] methods the program calls *)

Module Str.

(** [str.isspace] and the [\s] of [re], on the code point at the head of a
    UTF-8 string: [space_len s] is the number of bytes of that code point
    when it is white space, 0 otherwise.  White space is U+0009..U+000D,
    U+001C..U+0020, U+0085, U+00A0, U+1680, U+2000..U+200A, U+2028, U+2029,
    U+202F, U+205F and U+3000. *)
Definition space_len (s : string) : nat :=
  match s with
  | String a r =>
      let x := nat_of_ascii a in
      if (Nat.leb 9 x && Nat.leb x 13) || (Nat.leb 28 x && Nat.leb x 32) then 1
      else
        match r with
        | String b r' =>
            let y := nat_of_ascii b in
            if Nat.eqb x 194 then
              (if Nat.eqb y 133 || Nat.eqb y 160 then 2 else 0)
            else
              match r' with
              | String c _ =>
                  let z := nat_of_ascii c in
                  if Nat.eqb x 225 && Nat.eqb y 154 && Nat.eqb z 128 then 3
                  else if Nat.eqb x 226 && Nat.eqb y 128
                          && ((Nat.leb 128 z && Nat.leb z 138)
                              || Nat.eqb z 168 || Nat.eqb z 169 || Nat.eqb z 175)
                  then 3
                  else if Nat.eqb x 226 && Nat.eqb y 129 && Nat.eqb z 159 then 3
                  else if Nat.eqb x 227 && Nat.eqb y 128 && Nat.eqb z 128 then 3
                  else 0
              | EmptyString => 0
              end
        | EmptyString => 0
        end
  | EmptyString => 0
  end.

(** [s] after its first [skip] bytes is white space only. *)
Fixpoint all_space_from (skip : nat) (s : string) : bool :=
  match s with
  | EmptyString => true
  | String _ s' =>
      match skip with
      | S k => all_space_from k s'
      | O =>
          match space_len s with
          | O => false
          | S k => all_space_from k s'
          end
      end
  end.

Definition all_space (s : string) : bool := all_space_from 0 s.

(** [str.lstrip()], after the first [skip] bytes, which belong to a
    white-space code point already seen. *)
Fixpoint lstrip_from (skip : nat) (s : string) : string :=
  match s with
  | EmptyString => EmptyString
  | String _ s' =>
      match skip with
      | S k => lstrip_from k s'
      | O =>
          match space_len s with
          | O => s
          | S k => lstrip_from k s'
          end
      end
  end.

Definition lstrip (s : string) : string := lstrip_from 0 s.

(** [str.rstrip()]: the text is cut where only white space follows.  No
    white-space code point starts with a continuation byte of UTF-8, so the
    cut never falls inside a code point. *)
Fixpoint rstrip (s : string) : string :=
  match s with
  | EmptyString => EmptyString
  | String c s' => if all_space s then EmptyString else String c (rstrip s')
  end.

(** [str.strip()] *)
Definition strip (s : string) : string := rstrip (lstrip s).

(** [s.startswith(p)], returning the rest of [s] after [p]. *)
Fixpoint strip_prefix (p s : string) : option string :=
  match p, s with
  | EmptyString, _ => Some s
  | String a p', String b s' =>
      if Ascii.eqb a b then strip_prefix p' s' else None
  | String _ _, EmptyString => None
  end.

(** [s.replace(old, new)] for a non-empty [old]: scan from the left, replace
    each occurrence found and continue after it.  [fuel] bounds the number
    of scanning steps; [length s] is enough since each step consumes at
    least one character. *)
Fixpoint replace_fuel (fuel : nat) (old new s : string) : string :=
  match fuel with
  | O => s
  | S fuel' =>
      match strip_prefix old s with
      | Some rest => new ++ replace_fuel fuel' old new rest
      | None =>
          match s with
          | EmptyString => EmptyString
          | String c s' => String c (replace_fuel fuel' old new s')
          end
      end
  end.

Definition replace (old new s : string) : string :=
  replace_fuel (String.length s) old new s.

(** The matches of [\S+] in a string, in order (the parser's split of a
    [class] attribute value); [skip] as in [lstrip_from]. *)
Fixpoint tokens_aux (skip : nat) (cur : string) (s : string) : list string :=
  match s with
  | EmptyString => match cur with EmptyString => [] | _ => [cur] end
  | String c s' =>
      match skip with
      | S k => tokens_aux k cur s'
      | O =>
          match space_len s with
          | O => tokens_aux 0 (cur ++ String c EmptyString) s'
          | S k =>
              match cur with
              | EmptyString => tokens_aux k EmptyString s'
              | _ => cur :: tokens_aux k EmptyString s'
              end
          end
      end
  end.

Definition tokens (s : string) : list string := tokens_aux 0 EmptyString s.

Fixpoint join (sep : string) (l : list string) : string :=
  match l with
  | [] => EmptyString
  | [x] => x
  | x :: l' => x ++ sep ++ join sep l'
  end.

Fixpoint mem (x : string) (l : list string) : bool :=
  match l with
  | [] => false
  | y :: l' => String.eqb x y || mem x l'
  end.

(** [sub in s] *)
Fixpoint contains (sub s : string) : bool :=
  match strip_prefix sub s with
  | Some _ => true
  | None => match s with
            | EmptyString => false
            | String _ s' => contains sub s'
            end
  end.

(** The specification of [s.replace(old, new)]: [Replaced old new s s']
    holds when [s'] is [s] with each occurrence of [old], found from left to
    right and not overlapping an earlier one, rewritten to [new]. *)
Inductive Replaced (old new : string) : string -> string -> Prop :=
| Replaced_nil : Replaced old new "" ""
| Replaced_hit r r' :
    Replaced old new r r' -> Replaced old new (old ++ r) (new ++ r')
| Replaced_skip c s s' :
    strip_prefix old (String c s) = None ->
    Replaced old new s s' -> Replaced old new (String c s) (String c s').

End Str.

(** ** Regular expressions: the fragment of [re] used by [parse_image] *)

Module Re.

(** One pattern item: a literal character (written escaped or not in the
    pattern) or the capturing group around a greedy dot-star, a longest run
    of characters other than the line feed. *)
Inductive item : Type :=
| Chr (c : ascii)
| GroupAnyStar.

Definition pattern : Type := list item.

(** A run of literal characters. *)
Definition lit (s : string) : pattern := map Chr (list_ascii_of_string s).

Section Star.
(** [k s] tells whether the rest of the pattern matches at [s]. *)
Variable k : string -> bool.

(** Greedy dot-star followed by [k]: the longest run is tried first, then the
    matcher backtracks one character at a time.  The result is the text
    the run consumed. *)
Fixpoint star (s : string) : option string :=
  match s with
  | EmptyString => if k s then Some EmptyString else None
  | String c s' =>
      if Ascii.eqb c nl_char
      then (if k s then Some EmptyString else None)
      else match star s' with
           | Some g => Some (String c g)
           | None => if k s then Some EmptyString else None
           end
  end.
End Star.

(** Match [p] at the start of [s]; the result is the text of group 1 (empty
    when the pattern has no group). *)
Fixpoint match_here (p : pattern) (s : string) : option string :=
  match p with
  | [] => Some EmptyString
  | Chr c :: p' =>
      match s with
      | String c' s' => if Ascii.eqb c c' then match_here p' s' else None
      | EmptyString => None
      end
  | GroupAnyStar :: p' =>
      star (fun r => match match_here p' r with
                     | Some _ => true
                     | None => false
                     end) s
  end.

(** [re.search(p, s)]: the leftmost position where [p] matches;
    the result is [group(1)] of the match object, [None] when there is no
    match. *)
Fixpoint search (p : pattern) (s : string) : option string :=
  match match_here p s with
  | Some g => Some g
  | None =>
      match s with
      | EmptyString => None
      | String _ s' => search p s'
      end
  end.

(** No line feed in [s]. *)
Fixpoint no_newline (s : string) : bool :=
  match s with
  | EmptyString => true
  | String c s' => negb (Ascii.eqb c nl_char) && no_newline s'
  end.

End Re.

(** ** The parsed tree *)

(** The classes of the strings of a tree, other than [NavigableString].
    The parser gives a string found inside a [script], [style],
    [template], [rt] or [rp] tag the class of the nearest such tag around
    it. *)
Inductive StringClass : Type :=
| CData
| ProcessingInstruction
| Comment
| Declaration
| Doctype
| Stylesheet
| Script
| TemplateString
| RubyTextString
| RubyParenthesisString.

(** A node of the tree: a [NavigableString], a string of another class, or
    a tag.  [attrs] is the dictionary of the tag in insertion order, with
    distinct names; the value of a multi-valued attribute is kept as the
    text it was written as and split where it is read. *)
#[warning="-register-all"]
Inductive Node : Type :=
| Text (s : string)
| Special (cls : StringClass) (s : string)
| Tag (name : string) (attrs : list (string * string)) (children : list Node).

Module Soup.

Fixpoint lookup (k : string) (attrs : list (string * string)) : option string :=
  match attrs with
  | [] => None
  | (k', v) :: rest => if String.eqb k k' then Some v else lookup k rest
  end.

(** [tag.get(key)] *)
Definition get (x : Node) (key : string) : option string :=
  match x with
  | Tag _ attrs _ => lookup key attrs
  | Text _ | Special _ _ => None
  end.

(** [tag[key]]: [KeyError] when the attribute is absent.  A string leaf is a
    [str], which takes no string index. *)
Definition getitem (x : Node) (key : string) : result string :=
  match x with
  | Tag _ attrs _ =>
      match lookup key attrs with
      | Some v => Ok v
      | None => Raise (KeyError key)
      end
  | Text _ | Special _ _ => Raise TypeError
  end.

(** [None[key]] is a [TypeError]. *)
Definition getitem_opt (x : option Node) (key : string) : result string :=
  match x with
  | Some t => getitem t key
  | None => Raise TypeError
  end.

(** The attributes the parser stores as a list of whitespace-separated
    values: [class], [accesskey] and [dropzone] on every tag, and some more
    on the tags listed. *)
Definition multi_valued (name key : string) : bool :=
  Str.mem key ["class"; "accesskey"; "dropzone"]
  || Str.mem key
       (if String.eqb name "a" then ["rel"; "rev"]
        else if String.eqb name "link" then ["rel"; "rev"]
        else if String.eqb name "td" then ["headers"]
        else if String.eqb name "th" then ["headers"]
        else if String.eqb name "form" then ["accept-charset"]
        else if String.eqb name "object" then ["archive"]
        else if String.eqb name "area" then ["rel"]
        else if String.eqb name "icon" then ["sizes"]
        else if String.eqb name "iframe" then ["sandbox"]
        else if String.eqb name "output" then ["for"]
        else []).

Definition has_name (n : string) (x : Node) : bool :=
  match x with
  | Tag m _ _ => String.eqb n m
  | Text _ | Special _ _ => false
  end.

(** One entry [key: val] of the [attrs] dictionary given to [find]: a
    multi-valued attribute matches when one of its values, or all of them
    joined by a space, is [val]; any other attribute when it equals [val]. *)
Definition attr_matches (x : Node) (kv : string * string) : bool :=
  let (key, val) := kv in
  match x with
  | Tag name attrs _ =>
      match lookup key attrs with
      | Some v =>
          if multi_valued name key
          then Str.mem val (Str.tokens v)
               || String.eqb val (Str.join " " (Str.tokens v))
          else String.eqb val v
      | None => false
      end
  | Text _ | Special _ _ => false
  end.

Definition matches (name : string) (attrs : list (string * string)) (x : Node) : bool :=
  has_name name x && forallb (attr_matches x) attrs.

(** [tag.descendants]: every node below [x], in document order. *)
Fixpoint descendants (x : Node) : list Node :=
  match x with
  | Text _ | Special _ _ => []
  | Tag _ _ cs =>
      (fix go (l : list Node) : list Node :=
         match l with
         | [] => []
         | c :: l' => ((c :: descendants c) ++ go l')%list
         end) cs
  end.

(** [tag.find_all(name, attrs)] *)
Definition find_all (x : Node) (name : string) (attrs : list (string * string)) : list Node :=
  filter (matches name attrs) (descendants x).

(** [tag.find(name, attrs)]: the first result of [find_all], or [None]. *)
Definition find (x : Node) (name : string) (attrs : list (string * string)) : option Node :=
  match find_all x name attrs with
  | [] => None
  | y :: _ => Some y
  end.

(** *** Text *)

(** The string class a tag is interested in: the class the parser gives to
    the strings inside a tag of that name, if it is a special one. *)
Definition string_container (name : string) : option StringClass :=
  if String.eqb name "rt" then Some RubyTextString
  else if String.eqb name "rp" then Some RubyParenthesisString
  else if String.eqb name "style" then Some Stylesheet
  else if String.eqb name "script" then Some Script
  else if String.eqb name "template" then Some TemplateString
  else None.

Definition class_eqb (a b : StringClass) : bool :=
  match a, b with
  | CData, CData | ProcessingInstruction, ProcessingInstruction
  | Comment, Comment | Declaration, Declaration | Doctype, Doctype
  | Stylesheet, Stylesheet | Script, Script | TemplateString, TemplateString
  | RubyTextString, RubyTextString
  | RubyParenthesisString, RubyParenthesisString => true
  | _, _ => false
  end.

(** Whether a string of class [cls] ([None] for [NavigableString]) belongs
    to the text of a tag named [name]: a special tag takes the strings of
    its own class only, any other tag the [NavigableString]s and the
    [CData]s. *)
Definition interesting (name : string) (cls : option StringClass) : bool :=
  match string_container name, cls with
  | Some c, Some c' => class_eqb c c'
  | Some _, None => false
  | None, None => true
  | None, Some CData => true
  | None, Some _ => false
  end.

(** The strings at and below [x] that [want] takes, concatenated in
    document order. *)
Fixpoint strings (want : option StringClass -> bool) (x : Node) : string :=
  match x with
  | Text s => if want None then s else EmptyString
  | Special cls s => if want (Some cls) then s else EmptyString
  | Tag _ _ cs =>
      (fix go (l : list Node) : string :=
         match l with
         | [] => EmptyString
         | c :: l' => strings want c ++ go l'
         end) cs
  end.

(** [tag.text]: the strings below [x] of the classes [x] is interested in.
    The strings inside a [script], [style], [template], [rt] or [rp] below
    an ordinary tag are therefore left out, and so are comments. *)
Definition text (x : Node) : string :=
  match x with
  | Tag name _ _ => strings (interesting name) x
  | Text _ | Special _ _ => strings (interesting EmptyString) x
  end.

(** [None.text] is an [AttributeError]. *)
Definition text_opt (x : option Node) : result string :=
  match x with
  | Some t => Ok (text t)
  | None => Raise AttributeError
  end.

(** *** Serialisation ([decode_contents] with the default formatter) *)

(** [&], [<] and [>] become entities. *)
Fixpoint escape (s : string) : string :=
  match s with
  | EmptyString => EmptyString
  | String c s' =>
      (if Ascii.eqb c "&" then "&amp;"
       else if Ascii.eqb c "<" then "&lt;"
       else if Ascii.eqb c ">" then "&gt;"
       else String c EmptyString) ++ escape s'
  end.

(** An attribute value is written between double quotes, unless it holds a
    double quote: then between single quotes, or, when it holds both kinds,
    between double quotes with its double quotes as entities. *)
Definition quoted (v : string) : string :=
  if Str.contains dq v
  then if Str.contains "'" v
       then dq ++ Str.replace dq "&quot;" v ++ dq
       else "'" ++ v ++ "'"
  else dq ++ v ++ dq.

(** The formatter writes the attributes sorted by name. *)
Fixpoint insert_attr (kv : string * string) (l : list (string * string))
  : list (string * string) :=
  match l with
  | [] => [kv]
  | x :: l' =>
      if String.ltb (fst kv) (fst x) then kv :: l else x :: insert_attr kv l'
  end.

Definition sorted_attrs (attrs : list (string * string)) : list (string * string) :=
  fold_right insert_attr [] attrs.

(** ASCII lower case; on the text [content-type] it decides the same
    equality as [str.lower]. *)
Fixpoint lower (s : string) : string :=
  match s with
  | EmptyString => EmptyString
  | String c s' =>
      let n := nat_of_ascii c in
      String (if Nat.leb 65 n && Nat.leb n 90 then ascii_of_nat (n + 32) else c)
             (lower s')
  end.

(** The length of the match of [(^|;)\s*charset=] at the head of [s], where
    [bol] tells whether [s] starts a line. *)
Definition charset_prefix (bol : bool) (s : string) : option nat :=
  let after_spaces (r : string) : option nat :=
    match Str.strip_prefix "charset=" (Str.lstrip r) with
    | Some _ => Some (String.length r - String.length (Str.lstrip r) + 8)
    | None => None
    end in
  match (if bol then after_spaces s else None) with
  | Some n => Some n
  | None =>
      match s with
      | String c r =>
          if Ascii.eqb c ";"
          then match after_spaces r with
               | Some n => Some (S n)
               | None => None
               end
          else None
      | EmptyString => None
      end
  end.

(** Where the rewriting of a [content] value stands: looking for a match,
    copying the [n] bytes left of a match of the prefix, or dropping the
    old charset up to the next [;]. *)
Inductive charset_state : Type :=
| Seek (bol : bool)
| Copy (n : nat)
| Drop (bol : bool).

(** [CHARSET_RE.sub] on a [content] value: after each match of
    [(^|;)\s*charset=], in multi-line mode, the run of characters other than
    [;] is replaced by [utf-8]. *)
Fixpoint rewrite_charset (st : charset_state) (s : string) : string :=
  match s with
  | EmptyString => EmptyString
  | String c s' =>
      let is_nl := Ascii.eqb c nl_char in
      let seek (bol : bool) : string :=
        match charset_prefix bol s with
        | Some (S (S n)) => String c (rewrite_charset (Copy (S n)) s')
        | Some _ | None => String c (rewrite_charset (Seek is_nl) s')
        end in
      match st with
      | Seek bol => seek bol
      | Copy (S (S n)) => String c (rewrite_charset (Copy (S n)) s')
      | Copy _ => String c ("utf-8" ++ rewrite_charset (Drop false) s')
      | Drop bol =>
          if Ascii.eqb c ";" then seek bol
          else rewrite_charset (Drop is_nl) s'
      end
  end.

(** The value of the attribute [key] as it is written.  A multi-valued
    attribute is the list of its values joined by a space.  In a [meta] tag
    the parser marks the encoding for substitution: the [charset]
    attribute, or without one the [content] attribute when [http-equiv] is
    [content-type]; it is written for the output encoding, [utf-8]. *)
Definition attr_value (name : string) (attrs : list (string * string))
  (key v : string) : string :=
  if multi_valued name key then Str.join " " (Str.tokens v)
  else if String.eqb name "meta" then
    match lookup "charset" attrs with
    | Some _ => if String.eqb key "charset" then "utf-8" else v
    | None =>
        match lookup "http-equiv" attrs with
        | Some h =>
            if String.eqb key "content" && String.eqb (lower h) "content-type"
            then rewrite_charset (Seek true) v
            else v
        | None => v
        end
    end
  else v.

Definition decode_attr (name : string) (attrs : list (string * string))
  (kv : string * string) : string :=
  let (key, v) := kv in
  " " ++ key ++ "=" ++ quoted (escape (attr_value name attrs key v)).

(** Tags written without a closing tag when they have no children. *)
Definition void_tags : list string :=
  ["area"; "base"; "br"; "col"; "embed"; "hr"; "img"; "input"; "keygen";
   "link"; "menuitem"; "meta"; "param"; "source"; "track"; "wbr";
   "basefont"; "bgsound"; "command"; "frame"; "image"; "isindex"; "nextid";
   "spacer"].

(** Tags whose text is written as it is. *)
Definition cdata_tags : list string := ["script"; "style"].

(** A string leaf as it is written: a preformatted string between its
    marks, any other string with its entities unless [raw]. *)
Definition decode_string (raw : bool) (cls : option StringClass) (s : string)
  : string :=
  match cls with
  | Some CData => "<![CDATA[" ++ s ++ "]]>"
  | Some ProcessingInstruction => "<?" ++ s ++ ">"
  | Some Comment => "<!--" ++ s ++ "-->"
  | Some Declaration => "<?" ++ s ++ "?>"
  | Some Doctype => "<!DOCTYPE " ++ s ++ ">" ++ nl
  | _ => if raw then s else escape s
  end.

(** [decode]: [raw] tells whether the parent writes its text unescaped. *)
Fixpoint decode (raw : bool) (x : Node) : string :=
  match x with
  | Text s => decode_string raw None s
  | Special cls s => decode_string raw (Some cls) s
  | Tag name attrs cs =>
      let open :=
        "<" ++ name
        ++ String.concat "" (map (decode_attr name attrs) (sorted_attrs attrs)) in
      match cs with
      | [] =>
          if Str.mem name void_tags then open ++ "/>"
          else open ++ "></" ++ name ++ ">"
      | _ =>
          open ++ ">"
          ++ (fix go (l : list Node) : string :=
                match l with
                | [] => EmptyString
                | c :: l' => decode (Str.mem name cdata_tags) c ++ go l'
                end) cs
          ++ "</" ++ name ++ ">"
      end
  end.

(** [tag.decode_contents()]: the markup of the children of [x]. *)
Definition decode_contents (x : Node) : string :=
  match x with
  | Text _ | Special _ _ => EmptyString
  | Tag name _ cs => String.concat "" (map (decode (Str.mem name cdata_tags)) cs)
  end.

(** [None.decode_contents()] is an [AttributeError]. *)
Definition decode_contents_opt (x : option Node) : result string :=
  match x with
  | Some t => Ok (decode_contents t)
  | None => Raise AttributeError
  end.

End Soup.

(** ** The program *)

Definition BASE_URL : string := "https://t.me/s/".
Definition TITLE_LENGTH : nat := 80.

(** RSS feed (one entry). *)
Record Feed : Type := mkFeed {
  title : string;
  description : string;
  pub_date : string;
  link : string;
  author : string
}.

(** RSS headers. *)
Record Rss : Type := mkRss {
  rss_title : string;
  rss_description : string;
  rss_link : string;
  last_build_date : string;
  feeds : list Feed
}.

(** The pattern of line 92: the literal [url('], the group capturing a
    greedy dot-star, the literal [')]. *)
Definition url_pattern : Re.pattern :=
  (Re.lit "url('" ++ Re.GroupAnyStar :: Re.lit "')")%list.

Definition img_tag (image_link : string) : string :=
  "<img src=" ++ dq ++ image_link ++ dq
  ++ " referrerpolicy=" ++ dq ++ "no-referrer" ++ dq ++ ">".

(** Parse image from image tag. *)
Definition parse_image (image : Node) : result string :=
  image_style <- Soup.getitem image "style" ;;
  match Re.search url_pattern image_style with
  | None => Ok EmptyString
  | Some image_link => Ok (img_tag image_link)
  end.

Definition reply_block (href author text : string) : string :=
  "<div class=" ++ dq ++ "rsshub-quote" ++ dq ++ ">" ++ nl
  ++ "        <blockquote>" ++ nl
  ++ "            <p><a href=" ++ dq ++ href ++ dq ++ "><b>" ++ author
  ++ "</b>:</a></p>" ++ nl
  ++ "            <p>" ++ text ++ "</p>" ++ nl
  ++ "        </blockquote>" ++ nl
  ++ "    </div>".

(** Parse reply from reply tag. *)
Definition parse_reply (reply : Node) : result string :=
  author <- Soup.decode_contents_opt
              (Soup.find reply "span" [("class", "tgme_widget_message_author_name")]) ;;
  text <- Soup.decode_contents_opt
            (Soup.find reply "div" [("class", "js-message_reply_text")]) ;;
  href <- Soup.getitem reply "href" ;;
  Ok (reply_block href author text).

Definition preview_block
  (site_name preview_title_text preview_description_text image_text : string) : string :=
  "<blockquote>" ++ nl
  ++ "        <b>" ++ site_name ++ "</b><br>" ++ nl
  ++ "        <b>" ++ preview_title_text ++ "</b><br>" ++ nl
  ++ "        " ++ preview_description_text ++ nl
  ++ "        " ++ image_text ++ nl
  ++ "    </blockquote>".

(** Parse preview of inline link. *)
Definition parse_preview (preview : Node) : result string :=
  site_name <- Soup.decode_contents_opt
                 (Soup.find preview "div" [("class", "link_preview_site_name")]) ;;
  image_text <- match Soup.find preview "i" [("class", "link_preview_image")] with
                | Some image => parse_image image
                | None => Ok EmptyString
                end ;;
  let preview_title := Soup.find preview "div" [("class", "link_preview_title")] in
  href <- Soup.getitem preview "href" ;;
  let preview_title_text :=
    "<a href=" ++ dq ++ href ++ dq ++ ">"
    ++ match preview_title with
       | Some t => Soup.decode_contents t
       | None => site_name
       end
    ++ "</a>" in
  let preview_description_text :=
    match Soup.find preview "div" [("class", "link_preview_description")] with
    | Some d => "<p>" ++ Soup.decode_contents d ++ "</p>"
    | None => EmptyString
    end in
  Ok (preview_block site_name preview_title_text preview_description_text image_text).

(** Lines 135-142 of [parse_feed]: the description before anything is added
    to it. *)
Definition feed_text (feed_tag : Node) : string :=
  match Soup.find feed_tag "div" [("class", "js-message_text")] with
  | Some text_content =>
      match Soup.find text_content "div" [("class", "js-message_text")] with
      | Some text_content_inner => Soup.decode_contents text_content_inner
      | None => Soup.decode_contents text_content
      end
  | None => EmptyString
  end.

(** Lines 144-151 of [parse_feed]: the title before its suffix. *)
Definition feed_title (feed_tag : Node) : string :=
  match Soup.find feed_tag "div" [("class", "js-message_text")] with
  | Some text_content =>
      match Soup.find text_content "b" [] with
      | Some b => Str.strip (Soup.text b)
      | None => "..."
      end
  | None => "..."
  end.

(** Lines 153-155: the loop over the photo wraps. *)
Fixpoint add_images (images : list Node) (description : string) : result string :=
  match images with
  | [] => Ok description
  | image :: rest =>
      image_text <- parse_image image ;;
      add_images rest (description ++ nl ++ image_text)
  end.

Definition video_notice : string :=
  nl ++ "<p><b>The message contain video, for watch it please visit the channel.</b></p>".

(** Parse feed from message tag. *)
Definition parse_feed (feed_tag : Node) : result Feed :=
  let description := feed_text feed_tag in
  let title := feed_title feed_tag in
  let images := Soup.find_all feed_tag "a" [("class", "tgme_widget_message_photo_wrap")] in
  description <- add_images images description ;;
  let reply := Soup.find feed_tag "a" [("class", "tgme_widget_message_reply")] in
  let preview := Soup.find feed_tag "a" [("class", "tgme_widget_message_link_preview")] in
  description <- match reply with
                 | Some r =>
                     reply_text <- parse_reply r ;;
                     Ok (reply_text ++ nl ++ description)
                 | None => Ok description
                 end ;;
  let video := Soup.find feed_tag "div" [("class", "tgme_widget_message_video_wrap")] in
  let description := match video with
                     | Some _ => description ++ video_notice
                     | None => description
                     end in
  description <- match preview with
                 | Some p =>
                     preview_text <- parse_preview p ;;
                     Ok (description ++ nl ++ preview_text)
                 | None => Ok description
                 end ;;
  let author :=
    match Soup.find feed_tag "span" [("class", "tgme_widget_message_from_author")] with
    | Some a => Some a
    | None => Soup.find feed_tag "a" [("class", "tgme_widget_message_owner_name")]
    end in
  pub_date <- Soup.getitem_opt (Soup.find feed_tag "time" [("class", "time")]) "datetime" ;;
  link <- Soup.getitem_opt
            (Soup.find feed_tag "a" [("class", "tgme_widget_message_date")]) "href" ;;
  author_text <- Soup.text_opt author ;;
  Ok (mkFeed (title ++ "...") description pub_date link author_text).

(** The loop of [parse_feeds]. *)
Fixpoint parse_each (feed_tags : list Node) : result (list Feed) :=
  match feed_tags with
  | [] => Ok []
  | feed_tag :: rest =>
      feed <- parse_feed feed_tag ;;
      feeds <- parse_each rest ;;
      Ok (feed :: feeds)
  end.

(** Parse feeds from root tag. *)
Definition parse_feeds (soup : Node) : result (list Feed) :=
  parse_each (Soup.find_all soup "div" [("class", "tgme_widget_message_wrap")]).

(** Extract title, description, link from root tag.  [now] is the reading of
    the clock, already formatted. *)
Definition parse_rss (now : string) (soup : Node) (url : string) (feeds : list Feed)
  : result Rss :=
  title <- Soup.getitem_opt (Soup.find soup "meta" [("property", "og:title")]) "content" ;;
  description <- Soup.getitem_opt
                   (Soup.find soup "meta" [("property", "og:description")]) "content" ;;
  Ok (mkRss title description (Str.replace "t.me/s/" "t.me/" url) now feeds).

Section Pipeline.
(** What the program takes from outside this file: the markup parser
    ([BeautifulSoup(raw, 'html.parser')]); the template engine, where
    [load_template name] is [Environment.get_template(name)] on the
    directory of the program, raising when the file is missing or
    ill-formed, and a loaded template is its [render], which can raise too;
    [urllib.parse.urljoin]; and the page the network returns for a URL
    ([None] for a status other than 200). *)
Variable parse_content : string -> Node.
Variable load_template : string -> result (Rss -> result string).
Variable urljoin : string -> string -> string.
Variable response : string -> option string.

(** Load template from file. *)
Definition get_template : result (Rss -> result string) :=
  load_template "rss.j2".

(** Get HTML content of channel. *)
Definition get_channel_content (url : string) : result string :=
  match response url with
  | Some body => Ok body
  | None => Raise RuntimeError
  end.

(** Render rss in RSS format. *)
Definition render_rss (rss : Rss) : result string :=
  template <- get_template ;;
  template rss.

(** Get RSS feed from telegram channel in specified format. *)
Definition get_rss_feed (now : string) (channel : string) : result string :=
  let url := urljoin BASE_URL channel in
  channel_content <- get_channel_content url ;;
  let soup := parse_content channel_content in
  feeds <- parse_feeds soup ;;
  rss <- parse_rss now soup url feeds ;;
  render_rss rss.
End Pipeline.

(** ** Vocabulary of the statements *)

(** What a match of the pattern somewhere in [s] means: [s] holds
    [url('], then a text [g] without line feed, then [')]. *)
Definition has_url (s : string) : Prop :=
  exists pre g post,
    s = pre ++ "url('" ++ g ++ "')" ++ post /\ Re.no_newline g = true.

(** The rest of the pattern after the group. *)
Definition closes (r : string) : bool :=
  match Re.match_here (Re.lit "')") r with
  | Some _ => true
  | None => false
  end.


(** The attribute [key] cannot be read from the result [o] of a [find]:
    nothing was found, or what was found has no such attribute. *)
Definition lacks (o : option Node) (key : string) : Prop :=
  match o with
  | Some t => Soup.get t key = None
  | None => True
  end.

(** The post container has no [time] node with a [datetime], or no date
    anchor with an [href]. *)
Definition missing_time_or_link (feed_tag : Node) : Prop :=
  lacks (Soup.find feed_tag "time" [("class", "time")]) "datetime"
  \/ lacks (Soup.find feed_tag "a" [("class", "tgme_widget_message_date")]) "href".

(** The description after each stage of [parse_feed]. *)
Definition with_reply (feed_tag : Node) (description : string) : result string :=
  match Soup.find feed_tag "a" [("class", "tgme_widget_message_reply")] with
  | Some r => reply_text <- parse_reply r ;; Ok (reply_text ++ nl ++ description)
  | None => Ok description
  end.

Definition with_video (feed_tag : Node) (description : string) : string :=
  match Soup.find feed_tag "div" [("class", "tgme_widget_message_video_wrap")] with
  | Some _ => description ++ video_notice
  | None => description
  end.

Definition with_preview (feed_tag : Node) (description : string) : result string :=
  match Soup.find feed_tag "a" [("class", "tgme_widget_message_link_preview")] with
  | Some p => preview_text <- parse_preview p ;; Ok (description ++ nl ++ preview_text)
  | None => Ok description
  end.

Definition author_of (feed_tag : Node) : option Node :=
  match Soup.find feed_tag "span" [("class", "tgme_widget_message_from_author")] with
  | Some a => Some a
  | None => Soup.find feed_tag "a" [("class", "tgme_widget_message_owner_name")]
  end.


(** ** The batch loop *)

(** The channels of [main], in the order of the source. *)
Definition channels : list string :=
  ["exp_fest"; "reliable_ml"; "cgevent"; "ai_newz"; "denissezy"; "NeuralShit";
   "dlinnlp"; "opendatascience"; "ScienceInquisition"; "graphML"].

(** The files on disk, by path.  Opening a file for writing is taken to
    succeed. *)
Definition files : Type := string -> option string.

(** [open(path, 'w')], [write(content)], [truncate()]: the file holds
    [content] and nothing else. *)
Definition write_file (path content : string) (fs : files) : files :=
  fun p => if String.eqb p path then Some content else fs p.

Definition out_path (channel : string) : string :=
  "gh-pages/" ++ channel ++ ".rdf".

Section Main.
Variable parse_content : string -> Node.
Variable load_template : string -> result (Rss -> result string).
Variable urljoin : string -> string -> string.
Variable response : string -> option string.
(** [clock i] is the reading of the clock while the channel of index [i] is
    processed. *)
Variable clock : nat -> string.

(** The loop of [main] from the channel of index [i] on: the files after
    the loop, and whether it ended or raised. *)
Fixpoint run_channels (i : nat) (todo : list string) (fs : files)
  : files * result unit :=
  match todo with
  | [] => (fs, Ok tt)
  | channel :: rest =>
      match get_rss_feed parse_content load_template urljoin response (clock i) channel with
      | Ok rss_content =>
          run_channels (S i) rest (write_file (out_path channel) rss_content fs)
      | Raise e => (fs, Raise e)
      end
  end.

Definition main (fs : files) : files * result unit :=
  run_channels 0 channels fs.
End Main.

(** ** Vocabulary of the further properties *)

(** The first match of the pattern in [s]: [g] is the text of the group,
    no match starts before [pre] ends, and no longer group fits. *)
Definition first_url (s pre g post : string) : Prop :=
  s = pre ++ "url('" ++ g ++ "')" ++ post
  /\ Re.no_newline g = true
  /\ (forall pre' rest,
        s = pre' ++ rest -> String.length pre' < String.length pre ->
        ~ exists g' post',
            rest = "url('" ++ g' ++ "')" ++ post' /\ Re.no_newline g' = true)
  /\ (forall g' post',
        g ++ "')" ++ post = g' ++ "')" ++ post' -> Re.no_newline g' = true ->
        String.length g' <= String.length g).

Definition styled (image : Node) : Prop := Soup.get image "style" <> None.

(** What [parse_reply] needs of a reply widget. *)
Definition reply_ok (reply : Node) : Prop :=
  Soup.find reply "span" [("class", "tgme_widget_message_author_name")] <> None
  /\ Soup.find reply "div" [("class", "js-message_reply_text")] <> None
  /\ Soup.get reply "href" <> None.

(** What [parse_preview] needs of a link preview. *)
Definition preview_ok (preview : Node) : Prop :=
  Soup.find preview "div" [("class", "link_preview_site_name")] <> None
  /\ (forall image,
        Soup.find preview "i" [("class", "link_preview_image")] = Some image ->
        styled image)
  /\ Soup.get preview "href" <> None.

(** What [parse_feed] needs of a post container. *)
Definition post_ok (feed_tag : Node) : Prop :=
  Forall styled
    (Soup.find_all feed_tag "a" [("class", "tgme_widget_message_photo_wrap")])
  /\ (forall reply,
        Soup.find feed_tag "a" [("class", "tgme_widget_message_reply")] = Some reply ->
        reply_ok reply)
  /\ (forall preview,
        Soup.find feed_tag "a" [("class", "tgme_widget_message_link_preview")]
        = Some preview ->
        preview_ok preview)
  /\ ~ missing_time_or_link feed_tag
  /\ author_of feed_tag <> None.

(** ** Sample markup *)

Module Sample.

Definition reply : Node :=
  Tag "a" [("class", "tgme_widget_message_reply"); ("href", "https://t.me/chan/1")]
    [Tag "span" [("class", "tgme_widget_message_author_name")] [Text "Bob"];
     Tag "div" [("class", "tgme_widget_message_text js-message_reply_text")]
       [Text "hi & bye"]].

Definition preview : Node :=
  Tag "a" [("class", "tgme_widget_message_link_preview"); ("href", "https://x/")]
    [Tag "div" [("class", "link_preview_site_name")] [Text "X"];
     Tag "div" [("class", "link_preview_title")] [Text "Why"]].

Definition text_div : Node :=
  Tag "div" [("class", "tgme_widget_message_text js-message_text")]
    [Tag "b" [] [Text " Breaking News "]; Text " body"; Tag "br" [] []].

Definition photo : Node :=
  Tag "a" [("class", "tgme_widget_message_photo_wrap");
           ("style", "background-image:url('https://x/y.jpg')")] [].

Definition owner : Node :=
  Tag "a" [("class", "tgme_widget_message_owner_name")] [Text "Chan"].

Definition time : Node :=
  Tag "time" [("class", "time"); ("datetime", "2020-01-01T00:00:00+00:00")] [].

Definition date : Node :=
  Tag "a" [("class", "tgme_widget_message_date"); ("href", "https://t.me/chan/2")] [].

(** A post with a reply, a text, a photo and a link preview. *)
Definition post : Node :=
  Tag "div" [("class", "tgme_widget_message_wrap js-widget_message_wrap")]
    [reply; text_div; photo; preview; owner; time; date].

Definition post_feed : Feed :=
  Eval vm_compute in
    match parse_feed post with
    | Ok f => f
    | Raise _ => mkFeed "" "" "" "" ""
    end.

(** A container without a [time] node. *)
Definition post_without_time : Node :=
  Tag "div" [("class", "tgme_widget_message_wrap")] [text_div; owner; date].

(** A post whose photo wrap has no [style]. *)
Definition post_unstyled_photo : Node :=
  Tag "div" [("class", "tgme_widget_message_wrap")]
    [text_div; Tag "a" [("class", "tgme_widget_message_photo_wrap")] [];
     owner; time; date].

(** A post whose link preview has an image without [style]. *)
Definition post_unstyled_preview : Node :=
  Tag "div" [("class", "tgme_widget_message_wrap")]
    [text_div;
     Tag "a" [("class", "tgme_widget_message_link_preview"); ("href", "https://x/")]
       [Tag "div" [("class", "link_preview_site_name")] [Text "X"];
        Tag "i" [("class", "link_preview_image")] []];
     owner; time; date].

Definition metas : list Node :=
  [Tag "meta" [("property", "og:title"); ("content", "Chan")] [];
   Tag "meta" [("property", "og:description"); ("content", "A channel")] []].

Definition page : Node := Tag "[document]" [] (metas ++ [post])%list.

Definition page_without_time : Node :=
  Tag "[document]" [] (metas ++ [post; post_without_time])%list.

(** U+2003, EM SPACE, in UTF-8. *)
Definition em_space : string :=
  String (ascii_of_nat 226) (String (ascii_of_nat 128)
    (String (ascii_of_nat 131) EmptyString)).

(** A reply whose sub-nodes hold markup. *)
Definition rich_reply : Node :=
  Tag "a" [("class", "tgme_widget_message_reply"); ("href", "https://t.me/chan/1")]
    [Tag "span" [("class", "tgme_widget_message_author_name")]
       [Tag "span" [("dir", "auto")] [Text "Bob"]];
     Tag "div" [("class", "tgme_widget_message_text js-message_reply_text")]
       [Text "hi "; Tag "b" [] [Text "there"]; Text " & bye"]].

(** The same reply without its [href]. *)
Definition reply_without_href : Node :=
  Tag "a" [("class", "tgme_widget_message_reply")]
    [Tag "span" [("class", "tgme_widget_message_author_name")]
       [Tag "span" [("dir", "auto")] [Text "Bob"]];
     Tag "div" [("class", "tgme_widget_message_text js-message_reply_text")]
       [Text "hi "; Tag "b" [] [Text "there"]; Text " & bye"]].

(** The text node nested in the primary text node. *)
Definition inner_text : Node :=
  Tag "div" [("class", "tgme_widget_message_text js-message_text")]
    [Tag "a" [("href", "https://e.org/?a=1&b=2"); ("target", "_blank");
              ("rel", "noopener  noreferrer")] [Text "link"];
     Text " & more"; Special Comment " note "; Tag "br" [] []].

Definition bold : Node :=
  Tag "b" []
    [Text (em_space ++ "Breaking News "); Tag "script" [] [Special Script "x<y"]].

(** A primary text node with a bold run and a nested text node. *)
Definition rich_text : Node :=
  Tag "div" [("class", "tgme_widget_message_text js-message_text"); ("dir", "auto")]
    [bold; Text "outer"; inner_text].

Definition video : Node :=
  Tag "div" [("class", "tgme_widget_message_video_wrap")] [].

(** A link preview with a title, a description and an image. *)
Definition rich_preview : Node :=
  Tag "a" [("class", "tgme_widget_message_link_preview"); ("href", "https://x/")]
    [Tag "i" [("class", "link_preview_image");
              ("style", "background-image:url('https://x/p.png')")] [];
     Tag "div" [("class", "link_preview_site_name")] [Text "X"];
     Tag "div" [("class", "link_preview_title")] [Text "Why"];
     Tag "div" [("class", "link_preview_description")]
       [Text "Because"; Tag "br" [] []]].

Definition from_author : Node :=
  Tag "span" [("class", "tgme_widget_message_from_author")]
    [Text "Alice"; Tag "style" [] [Special Stylesheet "a>b"]].

(** A forwarded post with every kind of fragment. *)
Definition rich_post : Node :=
  Tag "div" [("class", "tgme_widget_message_wrap js-widget_message_wrap")]
    [rich_reply; rich_text; photo; video; rich_preview; from_author; owner;
     time; date].

Definition rich_feed : Feed :=
  Eval vm_compute in
    match parse_feed rich_post with
    | Ok f => f
    | Raise _ => mkFeed "" "" "" "" ""
    end.

(** A post with a primary text node only, without nested text node. *)
Definition plain_post : Node :=
  Tag "div" [("class", "tgme_widget_message_wrap")]
    [Tag "div" [("class", "js-message_text")] [Text "a < b"]; owner; time; date].

Definition plain_post_feed : Feed :=
  Eval vm_compute in
    match parse_feed plain_post with
    | Ok f => f
    | Raise _ => mkFeed "" "" "" "" ""
    end.

(** A post without text. *)
Definition bare_post : Node :=
  Tag "div" [("class", "tgme_widget_message_wrap")] [owner; time; date].

Definition bare_post_feed : Feed :=
  Eval vm_compute in
    match parse_feed bare_post with
    | Ok f => f
    | Raise _ => mkFeed "" "" "" "" ""
    end.

End Sample.

(** * Properties *)

(** ** Strings *)

Module StrFacts.
Import Str.

Lemma append_nil_l (s : string) : "" ++ s = s.
Proof. reflexivity. Qed.

Lemma append_nil_r (s : string) : s ++ "" = s.
Proof. induction s as [|c s IH]; simpl; [reflexivity | now rewrite IH]. Qed.

Lemma append_assoc (a b c : string) : (a ++ b) ++ c = a ++ b ++ c.
Proof. induction a as [|x a IH]; simpl; [reflexivity | now rewrite IH]. Qed.

Lemma length_append (a b : string) :
  String.length (a ++ b) = String.length a + String.length b.
Proof. induction a as [|x a IH]; simpl; [reflexivity | now rewrite IH]. Qed.

Lemma strip_prefix_spec (p s r : string) :
  strip_prefix p s = Some r <-> s = p ++ r.
Proof.
  revert s; induction p as [|a p IH]; intros s; simpl.
  - split; [now intros [= ->] | now intros ->].
  - destruct s as [|b s]; [split; discriminate|].
    destruct (Ascii.eqb_spec a b) as [->|Hne].
    + rewrite IH. split; [now intros -> | now intros [= ->]].
    + split; [discriminate | intros [= -> _]; now elim Hne].
Qed.

Lemma strip_prefix_append (p r : string) : strip_prefix p (p ++ r) = Some r.
Proof. now apply strip_prefix_spec. Qed.

Lemma strip_prefix_length (p s r : string) :
  strip_prefix p s = Some r -> String.length s = String.length p + String.length r.
Proof. intros H; apply strip_prefix_spec in H; subst; apply length_append. Qed.

(** *** [replace] rewrites every occurrence, scanning from the left *)

Section Replace.
Variables old new : string.
Hypothesis old_not_empty : old <> "".

Lemma strip_prefix_shorter (s r : string) :
  strip_prefix old s = Some r -> String.length r < String.length s.
Proof.
  intros H. apply strip_prefix_length in H.
  destruct old; [now elim old_not_empty | simpl in H; lia].
Qed.

Lemma strip_prefix_nil : strip_prefix old "" = None.
Proof. destruct old; [now elim old_not_empty | reflexivity]. Qed.

Lemma replace_fuel_irrelevant (n : nat) :
  forall m s, String.length s <= n -> String.length s <= m ->
              replace_fuel n old new s = replace_fuel m old new s.
Proof.
  induction n as [|n IH]; intros m s Hn Hm.
  - destruct s; [|simpl in Hn; lia].
    destruct m; simpl; [reflexivity | now rewrite strip_prefix_nil].
  - destruct m as [|m].
    + destruct s; [|simpl in Hm; lia].
      simpl; now rewrite strip_prefix_nil.
    + cbn [replace_fuel]. destruct (strip_prefix old s) as [r|] eqn:Hp.
      * apply strip_prefix_shorter in Hp. f_equal. apply IH; lia.
      * destruct s as [|c s]; [reflexivity|].
        simpl in Hn, Hm. f_equal. apply IH; lia.
Qed.

Lemma replace_nil : replace old new "" = "".
Proof. reflexivity. Qed.

Lemma replace_hit (r : string) :
  replace old new (old ++ r) = new ++ replace old new r.
Proof.
  unfold replace.
  destruct (String.length (old ++ r)) as [|n] eqn:Hlen.
  - rewrite length_append in Hlen.
    destruct old; [now elim old_not_empty | simpl in Hlen; lia].
  - cbn [replace_fuel]. rewrite strip_prefix_append. f_equal.
    rewrite length_append in Hlen.
    apply replace_fuel_irrelevant; [|lia].
    destruct old; [now elim old_not_empty | simpl in Hlen; lia].
Qed.

Lemma replace_skip (c : ascii) (s : string) :
  strip_prefix old (String c s) = None ->
  replace old new (String c s) = String c (replace old new s).
Proof.
  intros Hp. unfold replace. cbn [String.length replace_fuel].
  now rewrite Hp.
Qed.

(** The program's [replace] meets the specification. *)
Lemma replace_Replaced (s : string) : Replaced old new s (replace old new s).
Proof.
  remember (String.length s) as n eqn:Hn.
  revert s Hn. induction n as [n IH] using lt_wf_ind. intros s ->.
  destruct (strip_prefix old s) as [r|] eqn:Hp.
  - pose proof (strip_prefix_shorter _ _ Hp) as Hlt.
    apply strip_prefix_spec in Hp. subst s.
    rewrite replace_hit. constructor. eapply IH; [exact Hlt | reflexivity].
  - destruct s as [|c s]; [constructor|].
    rewrite (replace_skip c s Hp). constructor; [exact Hp|].
    eapply IH; [|reflexivity]. simpl; lia.
Qed.

(** The specification determines the result. *)
Lemma Replaced_functional (s a b : string) :
  Replaced old new s a -> Replaced old new s b -> a = b.
Proof.
  intros Ha; revert b.
  induction Ha as [|r r' _ IH|c s s' Hp _ IH]; intros b Hb.
  - inversion Hb as [|r0 r0' _ Heq|]; [reflexivity|].
    destruct old; [now elim old_not_empty | discriminate].
  - remember (old ++ r) as x eqn:Hx.
    destruct Hb as [|r0 r0' Hb|c s s' Hp Hb].
    + destruct old; [now elim old_not_empty | discriminate].
    + assert (r0 = r) as ->.
      { pose proof (strip_prefix_append old r0) as H1.
        rewrite Hx, strip_prefix_append in H1. congruence. }
      f_equal. now apply IH.
    + rewrite Hx, strip_prefix_append in Hp. discriminate.
  - remember (String c s) as x eqn:Hx.
    destruct Hb as [|r0 r0' Hb|c0 s0 s0' Hp0 Hb].
    + discriminate.
    + rewrite strip_prefix_append in Hp. discriminate.
    + injection Hx as -> ->. f_equal. now apply IH.
Qed.
End Replace.

End StrFacts.

(** ** The pattern of [parse_image] *)

Module ReFacts.
Import Str StrFacts Re.

Lemma match_here_lit (p : string) (q : pattern) (s : string) :
  match_here (lit p ++ q)%list s =
  match strip_prefix p s with
  | Some r => match_here q r
  | None => None
  end.
Proof.
  revert s; induction p as [|a p IH]; intros s; [reflexivity|].
  cbn [lit list_ascii_of_string map app match_here strip_prefix].
  destruct s as [|b s]; [reflexivity|].
  destruct (Ascii.eqb a b); [apply IH | reflexivity].
Qed.

Section StarFacts.
Variable k : string -> bool.

Lemma star_sound (s g : string) :
  star k s = Some g ->
  exists r, s = g ++ r /\ no_newline g = true /\ k r = true.
Proof.
  revert g; induction s as [|c s IH]; intros g; cbn [star].
  - destruct (k "") eqn:Hk; [|discriminate].
    intros [= <-]. exists ""; auto.
  - destruct (Ascii.eqb c nl_char) eqn:Hc.
    + destruct (k (String c s)) eqn:Hk; [|discriminate].
      intros [= <-]. exists (String c s); auto.
    + destruct (star k s) as [g'|].
      * intros [= <-]. destruct (IH g' eq_refl) as (r & -> & Hg & Hr).
        exists r. cbn [append no_newline]. rewrite Hc, Hg. auto.
      * destruct (k (String c s)) eqn:Hk; [|discriminate].
        intros [= <-]. exists (String c s); auto.
Qed.

Lemma star_here (r : string) : k r = true -> star k r <> None.
Proof.
  intros Hk. destruct r as [|c r]; cbn [star]; rewrite ?Hk; [discriminate|].
  destruct (Ascii.eqb c nl_char); [discriminate|].
  destruct (star k r); discriminate.
Qed.

Lemma star_complete (g r : string) :
  no_newline g = true -> k r = true -> star k (g ++ r) <> None.
Proof.
  intros Hg Hk. induction g as [|c g IH]; [now apply star_here|].
  cbn [no_newline] in Hg. apply andb_true_iff in Hg as [Hc Hg].
  apply negb_true_iff in Hc. cbn [append star]. rewrite Hc.
  destruct (star k (g ++ r)); [discriminate | now elim IH].
Qed.
End StarFacts.

Lemma closes_spec (r : string) : closes r = true <-> exists post, r = "')" ++ post.
Proof.
  unfold closes.
  replace (lit "')") with (lit "')" ++ [])%list by reflexivity.
  rewrite match_here_lit.
  destruct (strip_prefix "')" r) as [post|] eqn:Hp.
  - apply strip_prefix_spec in Hp. split; eauto.
  - split; [discriminate|]. intros (post & ->).
    rewrite strip_prefix_append in Hp. discriminate.
Qed.

Lemma match_here_url (s : string) :
  match_here url_pattern s =
  match strip_prefix "url('" s with
  | Some r => star closes r
  | None => None
  end.
Proof. unfold url_pattern. now rewrite match_here_lit. Qed.

Lemma match_here_url_sound (s g : string) :
  match_here url_pattern s = Some g ->
  exists post, s = "url('" ++ g ++ "')" ++ post /\ no_newline g = true.
Proof.
  rewrite match_here_url.
  destruct (strip_prefix "url('" s) as [r|] eqn:Hp; [|discriminate].
  apply strip_prefix_spec in Hp. intros Hs.
  apply star_sound in Hs as (r' & -> & Hg & Hr).
  apply closes_spec in Hr as (post & ->). eauto.
Qed.

Lemma match_here_url_complete (g post : string) :
  no_newline g = true ->
  match_here url_pattern ("url('" ++ g ++ "')" ++ post) <> None.
Proof.
  intros Hg. rewrite match_here_url, strip_prefix_append.
  apply star_complete; [exact Hg|]. apply closes_spec. eauto.
Qed.

Lemma search_sound (s g : string) :
  search url_pattern s = Some g ->
  exists pre post, s = pre ++ "url('" ++ g ++ "')" ++ post /\ no_newline g = true.
Proof.
  induction s as [|c s IH]; cbn [search].
  - destruct (match_here url_pattern "") as [g'|] eqn:Hm; [|discriminate].
    intros [= ->]. apply match_here_url_sound in Hm as (post & Hs & Hg).
    exists "", post; auto.
  - destruct (match_here url_pattern (String c s)) as [g'|] eqn:Hm.
    + intros [= ->]. apply match_here_url_sound in Hm as (post & Hs & Hg).
      exists "", post; auto.
    + intros H. destruct (IH H) as (pre & post & -> & Hg).
      exists (String c pre), post; auto.
Qed.

Lemma search_complete (pre g post : string) :
  no_newline g = true ->
  search url_pattern (pre ++ "url('" ++ g ++ "')" ++ post) <> None.
Proof.
  intros Hg. induction pre as [|c pre IH].
  - pose proof (match_here_url_complete g post Hg) as Hm.
    cbn [append] in *.
    cbn [search]. destruct (match_here url_pattern _); [discriminate | now elim Hm].
  - change (String c pre ++ ?x) with (String c (pre ++ x)).
    cbn [search]. destruct (match_here url_pattern _); [discriminate | exact IH].
Qed.

(** [re.search] finds no match exactly when the text holds no [url('...')]. *)
Lemma search_none_iff (s : string) :
  search url_pattern s = None <-> ~ has_url s.
Proof.
  split.
  - intros Hs (pre & g & post & -> & Hg). now apply (search_complete pre g post Hg).
  - intros Hn. destruct (search url_pattern s) as [g|] eqn:Hs; [|reflexivity].
    elim Hn. apply search_sound in Hs as (pre & post & Hs & Hg).
    exists pre, g, post; auto.
Qed.

(** The group is greedy: it runs to the last [')] of the line. *)
Example search_greedy :
  search url_pattern "a:url('x') b:url('y')" = Some "x') b:url('y".
Proof. reflexivity. Qed.

(** A line feed ends the run of the group. *)
Example search_line_feed :
  search url_pattern ("url('x" ++ nl ++ "') url('y')") = Some "y".
Proof. reflexivity. Qed.

End ReFacts.

(** ** The error monad *)

Lemma bind_Ok {A B : Type} (r : result A) (k : A -> result B) (b : B) :
  bind r k = Ok b <-> exists a, r = Ok a /\ k a = Ok b.
Proof.
  destruct r as [a|e]; simpl; split.
  - eauto.
  - now intros (a' & [= <-] & H).
  - discriminate.
  - now intros (a' & [=] & _).
Qed.

Lemma raises_bind {A B : Type} (r : result A) (k : A -> result B) :
  raises r -> raises (bind r k).
Proof. intros (e & ->). now exists e. Qed.

Lemma raises_bind_then {A B : Type} (r : result A) (k : A -> result B) :
  (forall a, raises (k a)) -> raises (bind r k).
Proof. intros H. destruct r as [a|e]; simpl; [apply H | now exists e]. Qed.

Lemma raises_not_Ok {A : Type} (r : result A) :
  raises r <-> forall a, r <> Ok a.
Proof.
  split.
  - intros (e & ->) a. discriminate.
  - intros H. destruct r as [a|e]; [now elim (H a) | now exists e].
Qed.

(** ** Tree queries *)

Module SoupFacts.
Import Soup.

Lemma matches_Tag (name : string) (attrs : list (string * string)) (x : Node) :
  matches name attrs x = true -> exists cs ats, x = Tag name ats cs.
Proof.
  unfold matches. destruct x as [s|c s|m ats cs]; simpl; [discriminate..|].
  intros H. apply andb_true_iff in H as [H _].
  apply String.eqb_eq in H as ->. eauto.
Qed.

Lemma find_all_In (x y : Node) (name : string) (attrs : list (string * string)) :
  In y (find_all x name attrs) <->
  In y (descendants x) /\ matches name attrs y = true.
Proof. unfold find_all. apply filter_In. Qed.

Lemma find_all_Tag (x y : Node) (name : string) (attrs : list (string * string)) :
  In y (find_all x name attrs) -> exists cs ats, y = Tag name ats cs.
Proof. intros H. apply find_all_In in H as [_ H]. eapply matches_Tag, H. Qed.

Lemma find_In (x y : Node) (name : string) (attrs : list (string * string)) :
  find x name attrs = Some y -> In y (find_all x name attrs).
Proof.
  unfold find. destruct (find_all x name attrs); [discriminate|].
  intros [= ->]. now left.
Qed.

Lemma find_Tag (x y : Node) (name : string) (attrs : list (string * string)) :
  find x name attrs = Some y -> exists cs ats, y = Tag name ats cs.
Proof. intros H. eapply find_all_Tag, find_In, H. Qed.

Lemma filter_head {A : Type} (p : A -> bool) (l : list A) (y : A) (ys : list A) :
  filter p l = y :: ys ->
  exists l1 l2, l = (l1 ++ y :: l2)%list /\ p y = true
                /\ Forall (fun z => p z = false) l1.
Proof.
  induction l as [|a l IH]; simpl; [discriminate|].
  destruct (p a) eqn:Ha.
  - intros [= -> _]. exists [], l; auto.
  - intros H. destruct (IH H) as (l1 & l2 & -> & Hy & Hl1).
    exists (a :: l1), l2; auto.
Qed.

Lemma filter_skip {A : Type} (p : A -> bool) (l1 l2 : list A) :
  Forall (fun z => p z = false) l1 -> filter p (l1 ++ l2) = filter p l2.
Proof. induction 1 as [|a l1 Ha _ IH]; simpl; [reflexivity | now rewrite Ha]. Qed.

(** [find] returns the first node below [x], in document order, that
    matches. *)
Lemma find_first (x y : Node) (name : string) (attrs : list (string * string)) :
  find x name attrs = Some y <->
  exists before after,
    descendants x = (before ++ y :: after)%list
    /\ matches name attrs y = true
    /\ Forall (fun z => matches name attrs z = false) before.
Proof.
  unfold find, find_all. split.
  - destruct (filter _ _) as [|y' ys] eqn:Hf; [discriminate|].
    intros [= ->]. eapply filter_head, Hf.
  - intros (l1 & l2 & -> & Hy & Hl1).
    rewrite filter_skip by exact Hl1. simpl. now rewrite Hy.
Qed.

(** [find] returns [None] exactly when no node below [x] matches. *)
Lemma find_None (x : Node) (name : string) (attrs : list (string * string)) :
  find x name attrs = None <->
  Forall (fun z => matches name attrs z = false) (descendants x).
Proof.
  unfold find, find_all. split.
  - intros H. apply Forall_forall. intros z Hz.
    destruct (matches name attrs z) eqn:Hm; [|reflexivity].
    assert (In z (filter (matches name attrs) (descendants x))) as Hin
      by (apply filter_In; auto).
    destruct (filter _ _); [destruct Hin | discriminate].
  - intros H. rewrite <- (app_nil_r (descendants x)).
    now rewrite filter_skip.
Qed.

Lemma getitem_Ok (x : Node) (key v : string) :
  getitem x key = Ok v <-> get x key = Some v.
Proof.
  destruct x as [s|c s|n ats cs]; simpl; [split; discriminate..|].
  destruct (lookup key ats); split; congruence.
Qed.

Lemma getitem_Tag_None (n : string) (ats : list (string * string)) (cs : list Node)
  (key : string) :
  lookup key ats = None -> getitem (Tag n ats cs) key = Raise (KeyError key).
Proof. simpl. now intros ->. Qed.

End SoupFacts.

(** ** The image extractor *)

Section ParseImage.
Import Soup SoupFacts ReFacts.

Lemma parse_image_styled (image : Node) (style : string) :
  get image "style" = Some style ->
  parse_image image =
  match Re.search url_pattern style with
  | None => Ok ""
  | Some image_link => Ok (img_tag image_link)
  end.
Proof.
  intros H. apply getitem_Ok in H. unfold parse_image. now rewrite H.
Qed.

Lemma parse_image_unstyled (n : string) (ats : list (string * string)) (cs : list Node) :
  lookup "style" ats = None ->
  parse_image (Tag n ats cs) = Raise (KeyError "style").
Proof. intros H. unfold parse_image. now rewrite getitem_Tag_None. Qed.

Lemma img_tag_not_empty (image_link : string) : img_tag image_link <> "".
Proof. discriminate. Qed.

(** A tag either yields a string or raises [KeyError: 'style']. *)
Lemma parse_image_Tag (n : string) (ats : list (string * string)) (cs : list Node) :
  (exists s, parse_image (Tag n ats cs) = Ok s)
  \/ parse_image (Tag n ats cs) = Raise (KeyError "style").
Proof.
  destruct (lookup "style" ats) as [style|] eqn:Hs.
  - left. rewrite (parse_image_styled (Tag n ats cs) style Hs).
    destruct (Re.search url_pattern style); eauto.
  - right. now apply parse_image_unstyled.
Qed.

(** The loop over the photo wraps stops at the first one without a [style]
    attribute. *)
Lemma add_images_unstyled (images : list Node) :
  Forall (fun x => exists n ats cs, x = Tag n ats cs) images ->
  Exists (fun x => get x "style" = None) images ->
  forall description, add_images images description = Raise (KeyError "style").
Proof.
  induction 1 as [|x images (n & ats & cs & ->) _ IH]; intros Hex description.
  - inversion Hex.
  - cbn [add_images].
    destruct (parse_image_Tag n ats cs) as [(s & Hs)|Hs]; rewrite Hs;
      [|reflexivity].
    inversion Hex as [? ? Hx|? ? Hrest]; subst.
    + simpl in Hx. rewrite (parse_image_unstyled n ats cs Hx) in Hs.
      discriminate.
    + simpl. now apply IH.
Qed.

(** The loop appends one line per photo wrap, in order. *)
Lemma add_images_Ok (images : list Node) :
  forall description result,
    add_images images description = Ok result ->
    exists texts,
      Forall2 (fun image image_text => parse_image image = Ok image_text) images texts
      /\ result = description ++ String.concat "" (map (fun t => nl ++ t) texts).
Proof.
  induction images as [|image images IH]; intros description result; cbn [add_images].
  - intros [= <-]. exists []. split; [constructor|].
    simpl. now rewrite StrFacts.append_nil_r.
  - intros H. apply bind_Ok in H as (image_text & Himg & H).
    apply IH in H as (texts & Hall & ->).
    exists (image_text :: texts). split; [now constructor|].
    cbn [map]. change (String.concat "" (?a :: ?l)) with
      (match l with [] => a | _ => a ++ "" ++ String.concat "" l end).
    destruct texts as [|t texts]; cbn [map String.concat].
    + now rewrite !StrFacts.append_nil_r.
    + cbn [append]. now rewrite !StrFacts.append_assoc.
Qed.

End ParseImage.

(** ** The post extractor *)

Section ParseFeed.
Import Soup SoupFacts ReFacts.

Lemma lacks_raises (o : option Node) (key : string) :
  lacks o key -> raises (getitem_opt o key).
Proof.
  destruct o as [[s|c s|n ats cs]|]; simpl.
  - intros _. now exists TypeError.
  - intros _. now exists TypeError.
  - intros ->. now exists (KeyError key).
  - intros _. now exists TypeError.
Qed.

Lemma parse_feed_missing (feed_tag : Node) :
  missing_time_or_link feed_tag -> raises (parse_feed feed_tag).
Proof.
  intros Hmiss. unfold parse_feed.
  apply raises_bind_then; intros d1.
  apply raises_bind_then; intros d2.
  apply raises_bind_then; intros d3.
  destruct Hmiss as [Ht|Hl].
  - now apply raises_bind, lacks_raises.
  - apply raises_bind_then; intros pub. now apply raises_bind, lacks_raises.
Qed.

Lemma parse_each_raises (feed_tags : list Node) (feed_tag : Node) :
  In feed_tag feed_tags -> raises (parse_feed feed_tag) ->
  raises (parse_each feed_tags).
Proof.
  intros Hin Hr. induction feed_tags as [|x rest IH]; [destruct Hin|].
  cbn [parse_each]. destruct Hin as [->|Hin].
  - now apply raises_bind.
  - apply raises_bind_then; intros feed. now apply raises_bind, IH.
Qed.

(** [parse_feed] as the sequence of its stages. *)
Lemma parse_feed_stages (feed_tag : Node) :
  parse_feed feed_tag =
  (d1 <- add_images
           (find_all feed_tag "a" [("class", "tgme_widget_message_photo_wrap")])
           (feed_text feed_tag) ;;
   d2 <- with_reply feed_tag d1 ;;
   d3 <- with_preview feed_tag (with_video feed_tag d2) ;;
   pub_date <- getitem_opt (find feed_tag "time" [("class", "time")]) "datetime" ;;
   link <- getitem_opt
             (find feed_tag "a" [("class", "tgme_widget_message_date")]) "href" ;;
   author_text <- text_opt (author_of feed_tag) ;;
   Ok (mkFeed (feed_title feed_tag ++ "...") d3 pub_date link author_text)).
Proof. reflexivity. Qed.

Lemma parse_feed_Ok (feed_tag : Node) (f : Feed) :
  parse_feed feed_tag = Ok f ->
  exists d1 d2 d3 pub_date link author_text,
    add_images (find_all feed_tag "a" [("class", "tgme_widget_message_photo_wrap")])
               (feed_text feed_tag) = Ok d1
    /\ with_reply feed_tag d1 = Ok d2
    /\ with_preview feed_tag (with_video feed_tag d2) = Ok d3
    /\ getitem_opt (find feed_tag "time" [("class", "time")]) "datetime" = Ok pub_date
    /\ getitem_opt (find feed_tag "a" [("class", "tgme_widget_message_date")]) "href"
       = Ok link
    /\ text_opt (author_of feed_tag) = Ok author_text
    /\ f = mkFeed (feed_title feed_tag ++ "...") d3 pub_date link author_text.
Proof.
  rewrite parse_feed_stages. intros H.
  apply bind_Ok in H as (d1 & H1 & H).
  apply bind_Ok in H as (d2 & H2 & H).
  apply bind_Ok in H as (d3 & H3 & H).
  apply bind_Ok in H as (pub & H4 & H).
  apply bind_Ok in H as (lnk & H5 & H).
  apply bind_Ok in H as (auth & H6 & H).
  injection H as <-.
  exists d1, d2, d3, pub, lnk, auth. repeat split; assumption.
Qed.

Lemma with_reply_Ok (feed_tag : Node) (d d' : string) :
  with_reply feed_tag d = Ok d' ->
  exists reply_part,
    d' = reply_part ++ d
    /\ match find feed_tag "a" [("class", "tgme_widget_message_reply")] with
       | Some r => exists t, parse_reply r = Ok t /\ reply_part = t ++ nl
       | None => reply_part = ""
       end.
Proof.
  unfold with_reply.
  destruct (find feed_tag "a" [("class", "tgme_widget_message_reply")]) as [r|].
  - intros H. apply bind_Ok in H as (t & Ht & [= <-]).
    exists (t ++ nl). split; [now rewrite StrFacts.append_assoc | eauto].
  - intros [= <-]. exists "". auto.
Qed.

Lemma with_video_eq (feed_tag : Node) (d : string) :
  with_video feed_tag d
  = d ++ match find feed_tag "div" [("class", "tgme_widget_message_video_wrap")] with
         | Some _ => video_notice
         | None => ""
         end.
Proof.
  unfold with_video.
  destruct (find feed_tag "div" [("class", "tgme_widget_message_video_wrap")]);
    [reflexivity | now rewrite StrFacts.append_nil_r].
Qed.

Lemma with_preview_Ok (feed_tag : Node) (d d' : string) :
  with_preview feed_tag d = Ok d' ->
  exists preview_part,
    d' = d ++ preview_part
    /\ match find feed_tag "a" [("class", "tgme_widget_message_link_preview")] with
       | Some p => exists t, parse_preview p = Ok t /\ preview_part = nl ++ t
       | None => preview_part = ""
       end.
Proof.
  unfold with_preview.
  destruct (find feed_tag "a" [("class", "tgme_widget_message_link_preview")]) as [p|].
  - intros H. apply bind_Ok in H as (t & Ht & [= <-]).
    exists (nl ++ t). eauto.
  - intros [= <-]. exists "". now rewrite StrFacts.append_nil_r.
Qed.

(** The shape of the description of a post. *)
Lemma parse_feed_description (feed_tag : Node) (f : Feed) :
  parse_feed feed_tag = Ok f ->
  exists reply_part images_part video_part preview_part,
    description f
    = reply_part ++ feed_text feed_tag ++ images_part ++ video_part ++ preview_part
    /\ match find feed_tag "a" [("class", "tgme_widget_message_reply")] with
       | Some r => exists t, parse_reply r = Ok t /\ reply_part = t ++ nl
       | None => reply_part = ""
       end
    /\ (exists texts,
          Forall2 (fun image t => parse_image image = Ok t)
            (find_all feed_tag "a" [("class", "tgme_widget_message_photo_wrap")]) texts
          /\ images_part = String.concat "" (map (fun t => nl ++ t) texts))
    /\ video_part
       = match find feed_tag "div" [("class", "tgme_widget_message_video_wrap")] with
         | Some _ => video_notice
         | None => ""
         end
    /\ match find feed_tag "a" [("class", "tgme_widget_message_link_preview")] with
       | Some p => exists t, parse_preview p = Ok t /\ preview_part = nl ++ t
       | None => preview_part = ""
       end.
Proof.
  intros H. apply parse_feed_Ok in H
    as (d1 & d2 & d3 & pub & lnk & auth & H1 & H2 & H3 & _ & _ & _ & ->).
  apply add_images_Ok in H1 as (texts & Himgs & ->).
  apply with_reply_Ok in H2 as (reply_part & -> & Hreply).
  rewrite with_video_eq in H3.
  apply with_preview_Ok in H3 as (preview_part & -> & Hpreview).
  exists reply_part, (String.concat "" (map (fun t => nl ++ t) texts)).
  eexists. exists preview_part.
  split; [|split; [exact Hreply | split; [eauto | split; [reflexivity | exact Hpreview]]]].
  cbn [description]. now rewrite !StrFacts.append_assoc.
Qed.

End ParseFeed.

(** * The claims *)

(** ** Posts without a time or a date anchor *)

(** C1, as the specification states it, fails: [Sample.post_without_time] is
    a post container of the page [Sample.page_without_time] with no [time]
    node; [parse_feed] raises [TypeError] on it, and [parse_feeds] raises on
    the page instead of returning the other post alone. *)
Lemma skip_signal_counterexample :
  In Sample.post_without_time
     (Soup.find_all Sample.page_without_time "div"
        [("class", "tgme_widget_message_wrap")])
  /\ missing_time_or_link Sample.post_without_time
  /\ parse_feed Sample.post_without_time = Raise TypeError
  /\ parse_feeds Sample.page_without_time = Raise TypeError
  /\ parse_feeds Sample.page_without_time <> Ok [Sample.post_feed].
Proof.
  split; [vm_compute; auto|].
  split; [left; vm_compute; exact I|].
  split; [vm_compute; reflexivity|].
  split; [vm_compute; reflexivity|].
  vm_compute; discriminate.
Qed.

(** C1, amended: for every post container of a page that has no [time] node
    with a [datetime] attribute, or no date anchor with an [href] attribute,
    [parse_feed] raises, so it returns no post, partial or whole, and
    [parse_feeds] raises on that page. *)
Theorem parse_feed_without_time_or_link (soup feed_tag : Node) :
  In feed_tag (Soup.find_all soup "div" [("class", "tgme_widget_message_wrap")]) ->
  missing_time_or_link feed_tag ->
  raises (parse_feed feed_tag)
  /\ (forall f, parse_feed feed_tag <> Ok f)
  /\ raises (parse_feeds soup).
Proof.
  intros Hin Hmiss. pose proof (parse_feed_missing feed_tag Hmiss) as Hr.
  split; [exact Hr|]. split; [now apply raises_not_Ok|].
  unfold parse_feeds. eapply parse_each_raises; eassumption.
Qed.

Lemma parse_feed_without_time_or_link_witness :
  raises (parse_feed Sample.post_without_time)
  /\ (forall f, parse_feed Sample.post_without_time <> Ok f)
  /\ raises (parse_feeds Sample.page_without_time).
Proof.
  apply (parse_feed_without_time_or_link
           Sample.page_without_time Sample.post_without_time).
  - vm_compute; auto.
  - left; vm_compute; exact I.
Defined.

(** ** Title *)

(** C2: the title of an extracted post is the stripped text of the first [b]
    below the primary text node followed by [...], and [......] when there
    is no primary text node or no [b] below it. *)
Theorem title_of_post (feed_tag : Node) (f : Feed) :
  parse_feed feed_tag = Ok f ->
  (forall text_content b,
      Soup.find feed_tag "div" [("class", "js-message_text")] = Some text_content ->
      Soup.find text_content "b" [] = Some b ->
      title f = Str.strip (Soup.text b) ++ "...")
  /\ (forall text_content,
        Soup.find feed_tag "div" [("class", "js-message_text")] = Some text_content ->
        Soup.find text_content "b" [] = None ->
        title f = "......")
  /\ (Soup.find feed_tag "div" [("class", "js-message_text")] = None ->
      title f = "......").
Proof.
  intros H. apply parse_feed_Ok in H
    as (d1 & d2 & d3 & pub & lnk & auth & _ & _ & _ & _ & _ & _ & ->).
  cbn [title]. unfold feed_title.
  repeat split.
  - intros tc b -> ->. reflexivity.
  - intros tc -> ->. reflexivity.
  - intros ->. reflexivity.
Qed.

Lemma title_of_post_witness :
  title Sample.rich_feed = "Breaking News..."
  /\ title Sample.plain_post_feed = "......"
  /\ title Sample.bare_post_feed = "......".
Proof.
  split; [|split].
  - destruct (title_of_post Sample.rich_post Sample.rich_feed) as (Hb & _ & _);
      [vm_compute; reflexivity|].
    rewrite (Hb Sample.rich_text Sample.bold); vm_compute; reflexivity.
  - destruct (title_of_post Sample.plain_post Sample.plain_post_feed)
      as (_ & Hn & _); [vm_compute; reflexivity|].
    apply (Hn (Tag "div" [("class", "js-message_text")] [Text "a < b"]));
      vm_compute; reflexivity.
  - destruct (title_of_post Sample.bare_post Sample.bare_post_feed)
      as (_ & _ & Hn); [vm_compute; reflexivity|].
    apply Hn. vm_compute; reflexivity.
Defined.

(** ** Images *)

(** C3: on a node whose [style] value holds no [url('...')], [parse_image]
    returns the empty string, without raising; and on a node with a [style]
    attribute the empty string is returned in that case only. *)
Theorem parse_image_without_url (image : Node) (style : string) :
  Soup.get image "style" = Some style ->
  (~ has_url style -> parse_image image = Ok "")
  /\ (parse_image image = Ok "" -> ~ has_url style).
Proof.
  intros Hs. rewrite (parse_image_styled image style Hs). split.
  - intros Hn. apply ReFacts.search_none_iff in Hn. now rewrite Hn.
  - destruct (Re.search url_pattern style) as [g|] eqn:Hg.
    + intros H. assert (img_tag g = "") as H' by congruence.
      now elim (img_tag_not_empty g).
    + intros _. now apply ReFacts.search_none_iff.
Qed.

Lemma parse_image_without_url_witness :
  parse_image (Tag "a" [("style", "color:red")] []) = Ok "".
Proof.
  apply (parse_image_without_url (Tag "a" [("style", "color:red")] []) "color:red").
  - reflexivity.
  - apply ReFacts.search_none_iff. vm_compute; reflexivity.
Defined.

(** C10: on a node with a [style] attribute [parse_image] returns an [img]
    tag or the empty string; on a tag without one it raises
    [KeyError: 'style']; and then [parse_feed] raises too, for a photo wrap
    as for the image of a link preview. *)
Theorem parse_image_requires_style :
  (forall image style,
      Soup.get image "style" = Some style ->
      parse_image image = Ok ""
      \/ exists image_link, parse_image image = Ok (img_tag image_link))
  /\ (forall name attrs children,
        Soup.lookup "style" attrs = None ->
        parse_image (Tag name attrs children) = Raise (KeyError "style"))
  /\ (forall feed_tag image,
        In image (Soup.find_all feed_tag "a"
                    [("class", "tgme_widget_message_photo_wrap")]) ->
        Soup.get image "style" = None ->
        parse_feed feed_tag = Raise (KeyError "style"))
  /\ (forall feed_tag preview image,
        Soup.find feed_tag "a" [("class", "tgme_widget_message_link_preview")]
        = Some preview ->
        Soup.find preview "i" [("class", "link_preview_image")] = Some image ->
        Soup.get image "style" = None ->
        raises (parse_feed feed_tag)).
Proof.
  repeat split.
  - intros image style Hs. rewrite (parse_image_styled image style Hs).
    destruct (Re.search url_pattern style); eauto.
  - apply parse_image_unstyled.
  - intros feed_tag image Hin Hs. rewrite parse_feed_stages.
    rewrite add_images_unstyled; [reflexivity | |].
    + apply Forall_forall. intros x Hx.
      apply SoupFacts.find_all_Tag in Hx as (cs & ats & ->). eauto.
    + apply Exists_exists. eauto.
  - intros feed_tag preview image Hp Hi Hs. rewrite parse_feed_stages.
    apply raises_bind_then; intros d1.
    apply raises_bind_then; intros d2.
    apply raises_bind. unfold with_preview. rewrite Hp.
    apply raises_bind. unfold parse_preview.
    apply raises_bind_then; intros site_name.
    apply raises_bind. rewrite Hi.
    destruct (SoupFacts.find_Tag _ _ _ _ Hi) as (cs & ats & ->).
    exists (KeyError "style"). now apply parse_image_unstyled.
Qed.

Lemma parse_image_requires_style_witness :
  parse_image Sample.photo = Ok (img_tag "https://x/y.jpg")
  /\ parse_image (Tag "a" [("class", "tgme_widget_message_photo_wrap")] [])
     = Raise (KeyError "style")
  /\ parse_feed Sample.post_unstyled_photo = Raise (KeyError "style")
  /\ raises (parse_feed Sample.post_unstyled_preview).
Proof.
  destruct parse_image_requires_style as (H1 & H2 & H3 & H4).
  split; [|split; [|split]].
  - destruct (H1 Sample.photo "background-image:url('https://x/y.jpg')" eq_refl)
      as [H|(image_link & H)]; [vm_compute in H; discriminate|].
    vm_compute; reflexivity.
  - apply H2. reflexivity.
  - apply (H3 Sample.post_unstyled_photo
              (Tag "a" [("class", "tgme_widget_message_photo_wrap")] []));
      vm_compute; auto.
  - apply (H4 Sample.post_unstyled_preview
              (Tag "a" [("class", "tgme_widget_message_link_preview");
                        ("href", "https://x/")]
                 [Tag "div" [("class", "link_preview_site_name")] [Text "X"];
                  Tag "i" [("class", "link_preview_image")] []])
              (Tag "i" [("class", "link_preview_image")] []));
      vm_compute; reflexivity.
Defined.

(** ** Body *)

(** C4: the description of an extracted post is, in this order, the reply
    block and a line feed when there is a reply widget, the primary text,
    one line feed and image text per photo wrap in document order, a line
    feed and the video sentence when there is a video wrapper, a line feed
    and the preview block when there is a link preview. *)
Theorem description_in_fixed_order (feed_tag : Node) (f : Feed) :
  parse_feed feed_tag = Ok f ->
  exists reply_part images_part video_part preview_part,
    description f
    = reply_part ++ feed_text feed_tag ++ images_part ++ video_part ++ preview_part
    /\ match Soup.find feed_tag "a" [("class", "tgme_widget_message_reply")] with
       | Some r => exists t, parse_reply r = Ok t /\ reply_part = t ++ nl
       | None => reply_part = ""
       end
    /\ (exists texts,
          Forall2 (fun image t => parse_image image = Ok t)
            (Soup.find_all feed_tag "a"
               [("class", "tgme_widget_message_photo_wrap")]) texts
          /\ images_part = String.concat "" (map (fun t => nl ++ t) texts))
    /\ video_part
       = match Soup.find feed_tag "div"
                 [("class", "tgme_widget_message_video_wrap")] with
         | Some _ =>
             nl ++ "<p><b>The message contain video, for watch it please "
             ++ "visit the channel.</b></p>"
         | None => ""
         end
    /\ match Soup.find feed_tag "a"
               [("class", "tgme_widget_message_link_preview")] with
       | Some p => exists t, parse_preview p = Ok t /\ preview_part = nl ++ t
       | None => preview_part = ""
       end.
Proof.
  intros H.
  destruct (parse_feed_description feed_tag f H)
    as (rp & ip & vp & pp & Hd & Hr & Hi & Hv & Hp).
  exists rp, ip, vp, pp.
  split; [exact Hd|]. split; [exact Hr|]. split; [exact Hi|].
  split; [|exact Hp].
  rewrite Hv.
  destruct (Soup.find feed_tag "div" [("class", "tgme_widget_message_video_wrap")]);
    reflexivity.
Qed.

Lemma description_in_fixed_order_witness :
  parse_feed Sample.rich_post = Ok Sample.rich_feed
  /\ description Sample.rich_feed
     = ("<div class=" ++ dq ++ "rsshub-quote" ++ dq ++ ">" ++ nl
        ++ "        <blockquote>" ++ nl ++ "            <p><a href=" ++ dq
        ++ "https://t.me/chan/1" ++ dq ++ "><b><span dir=" ++ dq ++ "auto"
        ++ dq ++ ">Bob</span></b>:</a></p>" ++ nl
        ++ "            <p>hi <b>there</b> &amp; bye</p>" ++ nl
        ++ "        </blockquote>" ++ nl ++ "    </div>")
       ++ nl
       ++ ("<a href=" ++ dq ++ "https://e.org/?a=1&amp;b=2" ++ dq
           ++ " rel=" ++ dq ++ "noopener noreferrer" ++ dq ++ " target="
           ++ dq ++ "_blank" ++ dq
           ++ ">link</a> &amp; more<!-- note --><br/>")
       ++ nl
       ++ ("<img src=" ++ dq ++ "https://x/y.jpg" ++ dq
           ++ " referrerpolicy=" ++ dq ++ "no-referrer" ++ dq ++ ">")
       ++ (nl
           ++ "<p><b>The message contain video, for watch it please visit the channel.</b></p>")
       ++ nl
       ++ ("<blockquote>" ++ nl ++ "        <b>X</b><br>" ++ nl
           ++ "        <b><a href=" ++ dq ++ "https://x/" ++ dq
           ++ ">Why</a></b><br>" ++ nl ++ "        <p>Because<br/></p>"
           ++ nl ++ "        <img src=" ++ dq ++ "https://x/p.png" ++ dq
           ++ " referrerpolicy=" ++ dq ++ "no-referrer" ++ dq ++ ">" ++ nl
           ++ "    </blockquote>").
Proof.
  assert (parse_feed Sample.rich_post = Ok Sample.rich_feed) as H
    by (vm_compute; reflexivity).
  split; [exact H|].
  destruct (description_in_fixed_order Sample.rich_post Sample.rich_feed H)
    as (rp & ip & vp & pp & Hd & Hr & (texts & Hi & ->) & -> & Hp).
  change (Soup.find Sample.rich_post "a" [("class", "tgme_widget_message_reply")])
    with (Some Sample.rich_reply) in Hr.
  change (Soup.find Sample.rich_post "a"
            [("class", "tgme_widget_message_link_preview")])
    with (Some Sample.rich_preview) in Hp.
  destruct Hr as (rt & Hrt & ->). destruct Hp as (pt & Hpt & ->).
  change (Soup.find_all Sample.rich_post "a"
            [("class", "tgme_widget_message_photo_wrap")])
    with [Sample.photo] in Hi.
  inversion Hi as [|x t l l' Ht Hrest]; subst. inversion Hrest; subst.
  vm_compute in Ht. injection Ht as <-.
  vm_compute in Hrt. injection Hrt as <-.
  vm_compute in Hpt. injection Hpt as <-.
  rewrite Hd. vm_compute. reflexivity.
Defined.

(** C9: the description of an extracted post is built around a seed: the
    contents of the text node nested in the primary text node when there is
    one, else the contents of the primary text node, else the empty string.
    The seed stands after the reply part and before the image, video and
    preview parts, each of which is empty when the container has no such
    fragment. *)
Theorem body_seed (feed_tag : Node) (f : Feed) :
  parse_feed feed_tag = Ok f ->
  exists seed reply_part images_part video_part preview_part,
    description f
    = reply_part ++ seed ++ images_part ++ video_part ++ preview_part
    /\ seed
       = match Soup.find feed_tag "div" [("class", "js-message_text")] with
         | Some outer =>
             match Soup.find outer "div" [("class", "js-message_text")] with
             | Some inner => Soup.decode_contents inner
             | None => Soup.decode_contents outer
             end
         | None => ""
         end
    /\ match Soup.find feed_tag "a" [("class", "tgme_widget_message_reply")] with
       | Some r => exists t, parse_reply r = Ok t /\ reply_part = t ++ nl
       | None => reply_part = ""
       end
    /\ (exists texts,
          Forall2 (fun image t => parse_image image = Ok t)
            (Soup.find_all feed_tag "a"
               [("class", "tgme_widget_message_photo_wrap")]) texts
          /\ images_part = String.concat "" (map (fun t => nl ++ t) texts))
    /\ (Soup.find feed_tag "div" [("class", "tgme_widget_message_video_wrap")]
        = None -> video_part = "")
    /\ match Soup.find feed_tag "a"
               [("class", "tgme_widget_message_link_preview")] with
       | Some p => exists t, parse_preview p = Ok t /\ preview_part = nl ++ t
       | None => preview_part = ""
       end.
Proof.
  intros H.
  destruct (parse_feed_description feed_tag f H)
    as (rp & ip & vp & pp & Hd & Hr & Hi & Hv & Hp).
  exists (feed_text feed_tag), rp, ip, vp, pp.
  split; [exact Hd|]. split; [reflexivity|]. split; [exact Hr|].
  split; [exact Hi|]. split; [|exact Hp].
  intros E. now rewrite E in Hv.
Qed.

Lemma body_seed_witness :
  (exists before after,
      description Sample.rich_feed
      = before
        ++ ("<a href=" ++ dq ++ "https://e.org/?a=1&amp;b=2" ++ dq
           ++ " rel=" ++ dq ++ "noopener noreferrer" ++ dq ++ " target="
           ++ dq ++ "_blank" ++ dq
           ++ ">link</a> &amp; more<!-- note --><br/>")
        ++ after)
  /\ description Sample.plain_post_feed = "a &lt; b"
  /\ description Sample.bare_post_feed = "".
Proof.
  split; [|split].
  - destruct (body_seed Sample.rich_post Sample.rich_feed)
      as (seed & rp & ip & vp & pp & Hd & -> & _); [vm_compute; reflexivity|].
    exists rp, (ip ++ vp ++ pp). rewrite Hd. reflexivity.
  - destruct (body_seed Sample.plain_post Sample.plain_post_feed)
      as (seed & rp & ip & vp & pp & Hd & -> & Hr & (texts & Hi & ->) & Hv & Hp);
      [vm_compute; reflexivity|].
    vm_compute in Hr, Hp. subst rp pp. rewrite (Hv eq_refl) in Hd.
    vm_compute in Hi. inversion Hi; subst. rewrite Hd.
    vm_compute; reflexivity.
  - destruct (body_seed Sample.bare_post Sample.bare_post_feed)
      as (seed & rp & ip & vp & pp & Hd & -> & Hr & (texts & Hi & ->) & Hv & Hp);
      [vm_compute; reflexivity|].
    vm_compute in Hr, Hp. subst rp pp. rewrite (Hv eq_refl) in Hd.
    vm_compute in Hi. inversion Hi; subst. rewrite Hd.
    vm_compute; reflexivity.
Defined.

(** ** Replies *)

(** C5, as the specification states it, fails:
    [Sample.reply_without_href] has its author-name and quoted-text
    sub-nodes and no [href], and [parse_reply] raises [KeyError: 'href'] on
    it instead of returning a fragment. *)
Lemma parse_reply_counterexample :
  Soup.find Sample.reply_without_href "span"
    [("class", "tgme_widget_message_author_name")] <> None
  /\ Soup.find Sample.reply_without_href "div"
       [("class", "js-message_reply_text")] <> None
  /\ parse_reply Sample.reply_without_href = Raise (KeyError "href")
  /\ ~ exists fragment, parse_reply Sample.reply_without_href = Ok fragment.
Proof.
  split; [vm_compute; discriminate|].
  split; [vm_compute; discriminate|].
  split; [vm_compute; reflexivity|].
  intros (fragment & H). vm_compute in H. discriminate.
Qed.

(** C5, amended: for a reply widget that has its author-name and
    quoted-text sub-nodes and an [href] attribute, [parse_reply] returns a
    [blockquote] that holds a link to the [href] around the author name in
    [b] tags, and after it the quoted text in a paragraph. *)
Theorem parse_reply_fragment (reply author text : Node) (href : string) :
  Soup.find reply "span" [("class", "tgme_widget_message_author_name")]
  = Some author ->
  Soup.find reply "div" [("class", "js-message_reply_text")] = Some text ->
  Soup.get reply "href" = Some href ->
  parse_reply reply
  = Ok ("<div class=" ++ dq ++ "rsshub-quote" ++ dq ++ ">" ++ nl
        ++ "        <blockquote>" ++ nl
        ++ "            <p><a href=" ++ dq ++ href ++ dq ++ ">"
        ++ "<b>" ++ Soup.decode_contents author ++ "</b>" ++ ":</a></p>" ++ nl
        ++ "            <p>" ++ Soup.decode_contents text ++ "</p>" ++ nl
        ++ "        </blockquote>" ++ nl
        ++ "    </div>").
Proof.
  intros Ha Ht Hh. apply SoupFacts.getitem_Ok in Hh.
  unfold parse_reply. rewrite Ha, Ht, Hh. cbn [Soup.decode_contents_opt bind].
  unfold reply_block. reflexivity.
Qed.

Lemma parse_reply_fragment_witness :
  parse_reply Sample.rich_reply
  = Ok ("<div class=" ++ dq ++ "rsshub-quote" ++ dq ++ ">" ++ nl
        ++ "        <blockquote>" ++ nl ++ "            <p><a href=" ++ dq
        ++ "https://t.me/chan/1" ++ dq ++ "><b><span dir=" ++ dq ++ "auto"
        ++ dq ++ ">Bob</span></b>:</a></p>" ++ nl
        ++ "            <p>hi <b>there</b> &amp; bye</p>" ++ nl
        ++ "        </blockquote>" ++ nl ++ "    </div>").
Proof.
  rewrite (parse_reply_fragment Sample.rich_reply
             (Tag "span" [("class", "tgme_widget_message_author_name")]
                [Tag "span" [("dir", "auto")] [Text "Bob"]])
             (Tag "div" [("class", "tgme_widget_message_text js-message_reply_text")]
                [Text "hi "; Tag "b" [] [Text "there"]; Text " & bye"])
             "https://t.me/chan/1");
    vm_compute; reflexivity.
Defined.

(** ** Author *)

(** C6: the author of an extracted post is the text of the forwarded-from
    author span when the container has one, and otherwise the text of the
    owner-name anchor. *)
Theorem author_of_post (feed_tag : Node) (f : Feed) :
  parse_feed feed_tag = Ok f ->
  match Soup.find feed_tag "span" [("class", "tgme_widget_message_from_author")] with
  | Some from_author => author f = Soup.text from_author
  | None =>
      exists owner,
        Soup.find feed_tag "a" [("class", "tgme_widget_message_owner_name")]
        = Some owner
        /\ author f = Soup.text owner
  end.
Proof.
  intros H. apply parse_feed_Ok in H
    as (d1 & d2 & d3 & pub & lnk & auth & _ & _ & _ & _ & _ & Ha & ->).
  cbn [author]. unfold author_of in Ha.
  destruct (Soup.find feed_tag "span" [("class", "tgme_widget_message_from_author")])
    as [a|].
  - simpl in Ha. congruence.
  - destruct (Soup.find feed_tag "a" [("class", "tgme_widget_message_owner_name")])
      as [o|]; [|discriminate].
    exists o. simpl in Ha. split; congruence.
Qed.

Lemma author_of_post_witness :
  author Sample.rich_feed = "Alice" /\ author Sample.post_feed = "Chan".
Proof.
  split.
  - pose proof (author_of_post Sample.rich_post Sample.rich_feed) as Ha.
    change (Soup.find Sample.rich_post "span"
              [("class", "tgme_widget_message_from_author")])
      with (Some Sample.from_author) in Ha.
    rewrite Ha; vm_compute; reflexivity.
  - pose proof (author_of_post Sample.post Sample.post_feed) as Ha.
    change (Soup.find Sample.post "span"
              [("class", "tgme_widget_message_from_author")])
      with (@None Node) in Ha.
    destruct Ha as (owner & Ho & Ha); [vm_compute; reflexivity|].
    vm_compute in Ho. injection Ho as <-. rewrite Ha. vm_compute; reflexivity.
Defined.

(** ** Channel headers *)

(** C7: the link of the headers is the fetch URL in which every occurrence
    of [t.me/s/], found from the left, is replaced by [t.me/]. *)
Theorem rss_link_replaced (now : string) (soup : Node) (url : string)
  (posts : list Feed) (rss : Rss) :
  parse_rss now soup url posts = Ok rss ->
  rss_link rss = Str.replace "t.me/s/" "t.me/" url
  /\ Str.Replaced "t.me/s/" "t.me/" url (rss_link rss).
Proof.
  unfold parse_rss. intros H.
  apply bind_Ok in H as (t & _ & H). apply bind_Ok in H as (d & _ & H).
  injection H as <-. cbn [rss_link]. split; [reflexivity|].
  apply StrFacts.replace_Replaced. discriminate.
Qed.

Lemma rss_link_replaced_witness :
  exists rss,
    parse_rss "Tue, 03 Nov 2026 00:00:00 +0000" Sample.page
      "https://t.me/s/exp_fest" [] = Ok rss
    /\ rss_link rss = "https://t.me/exp_fest".
Proof.
  eexists. split; [vm_compute; reflexivity|].
  etransitivity.
  - apply (rss_link_replaced "Tue, 03 Nov 2026 00:00:00 +0000" Sample.page
             "https://t.me/s/exp_fest" []).
    vm_compute; reflexivity.
  - vm_compute; reflexivity.
Defined.

(** * Further properties of the code *)

(** ** Where the image link comes from *)

Section FirstUrl.
Import Str StrFacts Re ReFacts.

Lemma star_greedy (k : string -> bool) (s : string) :
  forall g, star k s = Some g ->
  forall g' r', s = g' ++ r' -> no_newline g' = true -> k r' = true ->
                String.length g' <= String.length g.
Proof.
  induction s as [|c s IH]; intros g Hs g' r' Heq Hg' Hk.
  - destruct g'; [simpl; lia | discriminate].
  - destruct g' as [|c' g']; [simpl; lia|].
    cbn [append] in Heq. injection Heq as <- ->.
    cbn [no_newline] in Hg'. apply andb_true_iff in Hg' as [Hc Hg'].
    apply negb_true_iff in Hc. cbn [star] in Hs. rewrite Hc in Hs.
    destruct (star k (g' ++ r')) as [g0|] eqn:Hstar.
    + injection Hs as <-. simpl. apply le_n_S. eapply IH; eauto.
    + now elim (star_complete k g' r' Hg' Hk).
Qed.

Lemma search_first (s g : string) :
  search url_pattern s = Some g ->
  exists pre post, first_url s pre g post.
Proof.
  induction s as [|c s IH]; cbn [search].
  - destruct (match_here url_pattern "") as [g0|] eqn:Hm; [|discriminate].
    apply match_here_url_sound in Hm as (post & Hs & _). discriminate.
  - destruct (match_here url_pattern (String c s)) as [g0|] eqn:Hm.
    + intros [= ->]. pose proof Hm as Hm'.
      apply match_here_url_sound in Hm' as (post & Hs & Hg).
      exists "", post. split; [exact Hs|]. split; [exact Hg|]. split.
      * intros pre' rest _ Hlt. simpl in Hlt. lia.
      * intros g' post' Heq Hg'.
        rewrite match_here_url, Hs, strip_prefix_append in Hm.
        eapply star_greedy; [exact Hm | exact Heq | exact Hg' |].
        apply closes_spec. eauto.
    + intros Hs. destruct (IH Hs) as (pre & post & Heq & Hg & Hleft & Hgreedy).
      exists (String c pre), post. split; [now rewrite Heq|].
      split; [exact Hg|]. split; [|exact Hgreedy].
      intros pre' rest Hsplit Hlt (g' & post' & Hrest & Hg').
      destruct pre' as [|c' pre'].
      * cbn [append] in Hsplit. subst rest.
        rewrite Hrest in Hm.
        now elim (match_here_url_complete g' post' Hg').
      * cbn [append] in Hsplit. injection Hsplit as <- Hsplit.
        apply (Hleft pre' rest Hsplit); [simpl in Hlt; lia | eauto].
Qed.

End FirstUrl.

(** X1: the link of a returned [img] tag is the text between [url('] and
    [')] of the first match in the [style] value: no match starts earlier,
    the text holds no line feed, and no longer text fits. *)
Theorem parse_image_link (image : Node) (style out : string) :
  Soup.get image "style" = Some style ->
  parse_image image = Ok out ->
  out <> "" ->
  exists pre image_link post,
    first_url style pre image_link post /\ out = img_tag image_link.
Proof.
  intros Hs. rewrite (parse_image_styled image style Hs).
  destruct (Re.search url_pattern style) as [g|] eqn:Hg.
  - intros [= <-] _. destruct (search_first style g Hg) as (pre & post & H).
    exists pre, g, post. auto.
  - intros [= <-] H. now elim H.
Qed.

Lemma parse_image_link_witness :
  exists pre image_link post,
    first_url "background-image:url('https://x/y.jpg')" pre image_link post
    /\ img_tag "https://x/y.jpg" = img_tag image_link.
Proof.
  apply (parse_image_link Sample.photo
           "background-image:url('https://x/y.jpg')" (img_tag "https://x/y.jpg")).
  - reflexivity.
  - vm_compute; reflexivity.
  - discriminate.
Defined.

(** ** When the extractors return *)

Section Outcomes.
Import Soup SoupFacts.

Lemma exists_bind_Ok {A B : Type} (r : result A) (k : A -> result B) :
  (exists b, bind r k = Ok b) <-> exists a, r = Ok a /\ exists b, k a = Ok b.
Proof.
  split.
  - intros (b & H). apply bind_Ok in H as (a & Ha & Hb). eauto.
  - intros (a & -> & b & Hb). eauto.
Qed.

Lemma getitem_returns (x : Node) (key : string) :
  (exists v, getitem x key = Ok v) <-> get x key <> None.
Proof.
  split.
  - intros (v & H). apply getitem_Ok in H. congruence.
  - intros H. destruct (get x key) as [v|] eqn:Hg; [|now elim H].
    exists v. apply getitem_Ok. exact Hg.
Qed.

Lemma getitem_opt_returns (o : option Node) (key : string) :
  (exists v, getitem_opt o key = Ok v) <-> ~ lacks o key.
Proof.
  destruct o as [x|]; simpl.
  - apply getitem_returns.
  - split; [intros (v & H); discriminate | intros H; now elim H].
Qed.

Lemma decode_contents_opt_returns (o : option Node) :
  (exists v, decode_contents_opt o = Ok v) <-> o <> None.
Proof.
  destruct o as [x|]; simpl; split; try congruence; eauto.
  intros (v & H); discriminate.
Qed.

Lemma text_opt_returns (o : option Node) :
  (exists v, text_opt o = Ok v) <-> o <> None.
Proof.
  destruct o as [x|]; simpl; split; try congruence; eauto.
  intros (v & H); discriminate.
Qed.

Lemma parse_image_returns (image : Node) :
  (exists s, parse_image image = Ok s) <-> styled image.
Proof.
  unfold parse_image, styled. rewrite exists_bind_Ok. split.
  - intros (style & H & _). apply getitem_Ok in H. congruence.
  - intros H. apply getitem_returns in H as (style & H).
    exists style. split; [exact H|].
    destruct (Re.search url_pattern style); eauto.
Qed.

Lemma add_images_returns (images : list Node) :
  forall description,
    (exists d, add_images images description = Ok d) <-> Forall styled images.
Proof.
  induction images as [|image images IH]; intros description; cbn [add_images].
  - split; [constructor | eauto].
  - rewrite exists_bind_Ok. split.
    + intros (t & Ht & Hrest). constructor.
      * apply (proj1 (parse_image_returns _)); eauto.
      * eapply (proj1 (IH _)), Hrest.
    + intros H. inversion H as [|? ? Hi Hrest]; subst.
      apply parse_image_returns in Hi as (t & Ht).
      exists t. split; [exact Ht|]. now apply IH.
Qed.

Lemma parse_reply_returns (reply : Node) :
  (exists s, parse_reply reply = Ok s) <-> reply_ok reply.
Proof.
  unfold parse_reply, reply_ok. rewrite exists_bind_Ok. split.
  - intros (a & Ha & H). apply exists_bind_Ok in H as (t & Ht & H).
    apply exists_bind_Ok in H as (h & Hh & _).
    split; [|split].
    + apply (proj1 (decode_contents_opt_returns _)). exists a; exact Ha.
    + apply (proj1 (decode_contents_opt_returns _)). exists t; exact Ht.
    + apply (proj1 (getitem_returns _ _)). exists h; exact Hh.
  - intros (Ha & Ht & Hh).
    apply decode_contents_opt_returns in Ha as (a & Ha).
    apply decode_contents_opt_returns in Ht as (t & Ht).
    apply getitem_returns in Hh as (h & Hh).
    exists a. split; [exact Ha|]. rewrite Ht, Hh.
    exists (reply_block h a t). reflexivity.
Qed.

Lemma parse_preview_returns (preview : Node) :
  (exists s, parse_preview preview = Ok s) <-> preview_ok preview.
Proof.
  unfold parse_preview, preview_ok. rewrite exists_bind_Ok. split.
  - intros (site & Hsite & H). apply exists_bind_Ok in H as (img & Himg & H).
    apply exists_bind_Ok in H as (h & Hh & _).
    split; [|split].
    + apply (proj1 (decode_contents_opt_returns _)). exists site; exact Hsite.
    + intros image Hi. rewrite Hi in Himg.
      apply (proj1 (parse_image_returns _)). exists img; exact Himg.
    + apply (proj1 (getitem_returns _ _)). exists h; exact Hh.
  - intros (Hsite & Himg & Hh).
    apply decode_contents_opt_returns in Hsite as (site & Hsite).
    apply getitem_returns in Hh as (h & Hh).
    exists site. split; [exact Hsite|]. apply exists_bind_Ok.
    destruct (find preview "i" [("class", "link_preview_image")]) as [image|].
    + destruct (proj2 (parse_image_returns image) (Himg image eq_refl)) as (t & Ht).
      exists t. split; [exact Ht|]. rewrite Hh. cbn [bind]. eexists; reflexivity.
    + exists "". split; [reflexivity|]. rewrite Hh. cbn [bind].
      eexists; reflexivity.
Qed.

Lemma with_reply_returns (feed_tag : Node) (d : string) :
  (exists d', with_reply feed_tag d = Ok d') <->
  (forall reply,
      find feed_tag "a" [("class", "tgme_widget_message_reply")] = Some reply ->
      reply_ok reply).
Proof.
  unfold with_reply.
  destruct (find feed_tag "a" [("class", "tgme_widget_message_reply")]) as [r|].
  - rewrite exists_bind_Ok. split.
    + intros (t & Ht & _) reply [= <-].
      apply (proj1 (parse_reply_returns _)). exists t; exact Ht.
    + intros H. destruct (proj2 (parse_reply_returns r) (H r eq_refl)) as (t & Ht).
      exists t. split; [exact Ht|]. eexists; reflexivity.
  - split; [intros _ reply; discriminate | intros _; eexists; reflexivity].
Qed.

Lemma with_preview_returns (feed_tag : Node) (d : string) :
  (exists d', with_preview feed_tag d = Ok d') <->
  (forall preview,
      find feed_tag "a" [("class", "tgme_widget_message_link_preview")] = Some preview ->
      preview_ok preview).
Proof.
  unfold with_preview.
  destruct (find feed_tag "a" [("class", "tgme_widget_message_link_preview")]) as [p|].
  - rewrite exists_bind_Ok. split.
    + intros (t & Ht & _) preview [= <-].
      apply (proj1 (parse_preview_returns _)). exists t; exact Ht.
    + intros H. destruct (proj2 (parse_preview_returns p) (H p eq_refl)) as (t & Ht).
      exists t. split; [exact Ht|]. eexists; reflexivity.
  - split; [intros _ preview; discriminate | intros _; eexists; reflexivity].
Qed.

End Outcomes.

Lemma post_ok_iff (feed_tag : Node) :
  (exists f, parse_feed feed_tag = Ok f) <-> post_ok feed_tag.
Proof.
  rewrite parse_feed_stages. unfold post_ok, missing_time_or_link.
  rewrite exists_bind_Ok. split.
  - intros (d1 & H1 & H). apply exists_bind_Ok in H as (d2 & H2 & H).
    apply exists_bind_Ok in H as (d3 & H3 & H).
    apply exists_bind_Ok in H as (pub & H4 & H).
    apply exists_bind_Ok in H as (lnk & H5 & H).
    apply exists_bind_Ok in H as (auth & H6 & _).
    split; [apply (proj1 (add_images_returns _ (feed_text feed_tag)));
            exists d1; exact H1|].
    split; [apply (proj1 (with_reply_returns feed_tag d1)); exists d2; exact H2|].
    split; [apply (proj1 (with_preview_returns feed_tag (with_video feed_tag d2)));
            exists d3; exact H3|].
    split.
    + intros [Ht|Hl].
      * revert Ht. apply (proj1 (getitem_opt_returns _ _)). exists pub; exact H4.
      * revert Hl. apply (proj1 (getitem_opt_returns _ _)). exists lnk; exact H5.
    + apply (proj1 (text_opt_returns _)). exists auth; exact H6.
  - intros (Hi & Hr & Hp & Hm & Ha).
    destruct (proj2 (add_images_returns _ (feed_text feed_tag)) Hi) as (d1 & H1).
    exists d1. split; [exact H1|]. apply exists_bind_Ok.
    destruct (proj2 (with_reply_returns feed_tag d1) Hr) as (d2 & H2).
    exists d2. split; [exact H2|]. apply exists_bind_Ok.
    destruct (proj2 (with_preview_returns feed_tag (with_video feed_tag d2)) Hp)
      as (d3 & H3).
    exists d3. split; [exact H3|]. apply exists_bind_Ok.
    destruct (proj2 (getitem_opt_returns
                       (Soup.find feed_tag "time" [("class", "time")]) "datetime"))
      as (pub & H4); [intros Hl; apply Hm; left; exact Hl|].
    exists pub. split; [exact H4|]. apply exists_bind_Ok.
    destruct (proj2 (getitem_opt_returns
                       (Soup.find feed_tag "a" [("class", "tgme_widget_message_date")])
                       "href"))
      as (lnk & H5); [intros Hl; apply Hm; right; exact Hl|].
    exists lnk. split; [exact H5|]. apply exists_bind_Ok.
    destruct (proj2 (text_opt_returns (author_of feed_tag)) Ha) as (auth & H6).
    exists auth. split; [exact H6|]. eexists; reflexivity.
Qed.

(** X2: [parse_feed] returns a post exactly for the containers in which every
    photo wrap has a [style], the reply widget, if any, has its author
    name, its text and an [href], the link preview, if any, has its site
    name, an [href] and a [style] on its image, the time node has a
    [datetime], the date anchor an [href], and there is an author span or
    an owner anchor. *)
Theorem parse_feed_returns (feed_tag : Node) :
  (exists f, parse_feed feed_tag = Ok f) <-> post_ok feed_tag.
Proof. apply post_ok_iff. Qed.

Lemma parse_feed_returns_witness : post_ok Sample.post.
Proof.
  apply (proj1 (parse_feed_returns Sample.post)).
  exists Sample.post_feed. vm_compute; reflexivity.
Defined.

(** ** What a post carries *)

(** X3: the date and the link of a post are the [datetime] of the first
    [time] node of class [time] and the [href] of the first date anchor of
    the container, as they are. *)
Theorem parse_feed_date_and_link (feed_tag : Node) (f : Feed) :
  parse_feed feed_tag = Ok f ->
  exists time_node date_anchor,
    Soup.find feed_tag "time" [("class", "time")] = Some time_node
    /\ Soup.get time_node "datetime" = Some (pub_date f)
    /\ Soup.find feed_tag "a" [("class", "tgme_widget_message_date")] = Some date_anchor
    /\ Soup.get date_anchor "href" = Some (link f).
Proof.
  intros H. apply parse_feed_Ok in H
    as (d1 & d2 & d3 & pub & lnk & auth & _ & _ & _ & Ht & Hl & _ & ->).
  cbn [pub_date link].
  destruct (Soup.find feed_tag "time" [("class", "time")]) as [t|];
    [|discriminate].
  destruct (Soup.find feed_tag "a" [("class", "tgme_widget_message_date")]) as [a|];
    [|discriminate].
  exists t, a. cbn [Soup.getitem_opt] in Ht, Hl.
  apply SoupFacts.getitem_Ok in Ht. apply SoupFacts.getitem_Ok in Hl. auto.
Qed.

Lemma parse_feed_date_and_link_witness :
  exists time_node date_anchor,
    Soup.find Sample.post "time" [("class", "time")] = Some time_node
    /\ Soup.get time_node "datetime" = Some (pub_date Sample.post_feed)
    /\ Soup.find Sample.post "a" [("class", "tgme_widget_message_date")]
       = Some date_anchor
    /\ Soup.get date_anchor "href" = Some (link Sample.post_feed).
Proof.
  apply (parse_feed_date_and_link Sample.post Sample.post_feed).
  vm_compute; reflexivity.
Defined.

Section Contains.
Import Str StrFacts.

Lemma contains_append (sub pre post : string) :
  contains sub (pre ++ sub ++ post) = true.
Proof.
  induction pre as [|c pre IH].
  - cbn [append]. destruct (sub ++ post) eqn:E;
      cbn [contains]; rewrite <- E, strip_prefix_append; reflexivity.
  - cbn [append contains].
    destruct (strip_prefix sub (String c (pre ++ sub ++ post)));
      [reflexivity | exact IH].
Qed.

Lemma concat_In (f : string -> string) (t : string) (texts : list string) :
  In t texts ->
  exists a b, String.concat "" (map f texts) = a ++ f t ++ b.
Proof.
  induction texts as [|x texts IH]; [intros []|].
  intros [->|Hin].
  - exists "". destruct texts as [|y texts].
    + exists "". cbn. now rewrite append_nil_r.
    + eexists. cbn [map String.concat append]. reflexivity.
  - destruct (IH Hin) as (a & b & E). destruct texts as [|y texts]; [destruct Hin|].
    exists (f x ++ a), b. cbn [map String.concat] in *.
    rewrite E. cbn [append]. now rewrite append_assoc.
Qed.

End Contains.

(** X5: the image text of every photo wrap of the container stands in the
    description of the post, after a line feed. *)
Theorem description_holds_images (feed_tag : Node) (f : Feed) (image : Node)
  (image_text : string) :
  parse_feed feed_tag = Ok f ->
  In image (Soup.find_all feed_tag "a" [("class", "tgme_widget_message_photo_wrap")]) ->
  parse_image image = Ok image_text ->
  Str.contains (nl ++ image_text) (description f) = true.
Proof.
  intros H Hin Himg.
  destruct (parse_feed_description feed_tag f H)
    as (rp & ip & vp & pp & -> & _ & (texts & Hall & ->) & _).
  assert (In image_text texts) as Ht.
  { clear - Hall Hin Himg.
    induction Hall as [|x t l l' Hx _ IH]; [destruct Hin|].
    destruct Hin as [->|Hin]; [left; congruence | right; auto]. }
  destruct (concat_In (fun t => nl ++ t) image_text texts Ht) as (a & b & ->).
  replace (rp ++ feed_text feed_tag
           ++ (a ++ (nl ++ image_text) ++ b) ++ vp ++ pp)
    with ((rp ++ feed_text feed_tag ++ a)
          ++ (nl ++ image_text) ++ (b ++ vp ++ pp))
    by (now rewrite !StrFacts.append_assoc).
  apply contains_append.
Qed.

Lemma description_holds_images_witness :
  Str.contains (nl ++ img_tag "https://x/y.jpg") (description Sample.post_feed) = true.
Proof.
  apply (description_holds_images Sample.post Sample.post_feed Sample.photo).
  - vm_compute; reflexivity.
  - vm_compute; auto.
  - vm_compute; reflexivity.
Defined.

(** X18: in a container whose photo wraps, reply and link preview can be
    read, [parse_feed] raises [TypeError] when there is no [time] node and
    [KeyError: 'datetime'] when that node has no [datetime]; or else
    [TypeError] when there is no date anchor and [KeyError: 'href'] when
    that anchor has no [href]; or else [AttributeError] when there is
    neither an author span nor an owner anchor. *)
Theorem parse_feed_failures (feed_tag : Node) :
  Forall styled
    (Soup.find_all feed_tag "a" [("class", "tgme_widget_message_photo_wrap")]) ->
  (forall reply,
      Soup.find feed_tag "a" [("class", "tgme_widget_message_reply")] = Some reply ->
      reply_ok reply) ->
  (forall preview,
      Soup.find feed_tag "a" [("class", "tgme_widget_message_link_preview")]
      = Some preview ->
      preview_ok preview) ->
  (Soup.find feed_tag "time" [("class", "time")] = None ->
   parse_feed feed_tag = Raise TypeError)
  /\ (forall time_node,
        Soup.find feed_tag "time" [("class", "time")] = Some time_node ->
        Soup.get time_node "datetime" = None ->
        parse_feed feed_tag = Raise (KeyError "datetime"))
  /\ (~ lacks (Soup.find feed_tag "time" [("class", "time")]) "datetime" ->
      Soup.find feed_tag "a" [("class", "tgme_widget_message_date")] = None ->
      parse_feed feed_tag = Raise TypeError)
  /\ (forall date_anchor,
        ~ lacks (Soup.find feed_tag "time" [("class", "time")]) "datetime" ->
        Soup.find feed_tag "a" [("class", "tgme_widget_message_date")]
        = Some date_anchor ->
        Soup.get date_anchor "href" = None ->
        parse_feed feed_tag = Raise (KeyError "href"))
  /\ (~ missing_time_or_link feed_tag ->
      author_of feed_tag = None ->
      parse_feed feed_tag = Raise AttributeError).
Proof.
  intros Hi Hr Hp. rewrite parse_feed_stages.
  destruct (proj2 (add_images_returns _ (feed_text feed_tag)) Hi) as (d1 & ->).
  cbn [bind].
  destruct (proj2 (with_reply_returns feed_tag d1) Hr) as (d2 & ->). cbn [bind].
  destruct (proj2 (with_preview_returns feed_tag (with_video feed_tag d2)) Hp)
    as (d3 & ->).
  cbn [bind]. split; [|split; [|split; [|split]]].
  - intros ->. reflexivity.
  - intros t Ht Hd. rewrite Ht.
    destruct (SoupFacts.find_Tag _ _ _ _ Ht) as (cs & ats & ->).
    cbn [Soup.getitem_opt Soup.get] in *.
    now rewrite (SoupFacts.getitem_Tag_None "time" ats cs "datetime" Hd).
  - intros Ht ->. destruct (proj2 (getitem_opt_returns _ _) Ht) as (pub & ->).
    reflexivity.
  - intros a Ht Ha Hh. destruct (proj2 (getitem_opt_returns _ _) Ht) as (pub & ->).
    rewrite Ha. destruct (SoupFacts.find_Tag _ _ _ _ Ha) as (cs & ats & ->).
    cbn [Soup.getitem_opt Soup.get bind] in *.
    now rewrite (SoupFacts.getitem_Tag_None "a" ats cs "href" Hh).
  - intros Hm ->. unfold missing_time_or_link in Hm.
    destruct (proj2 (getitem_opt_returns
                       (Soup.find feed_tag "time" [("class", "time")]) "datetime"))
      as (pub & ->); [tauto|].
    destruct (proj2 (getitem_opt_returns
                       (Soup.find feed_tag "a" [("class", "tgme_widget_message_date")])
                       "href"))
      as (lnk & ->); [tauto|].
    reflexivity.
Qed.

Lemma parse_feed_failures_witness :
  parse_feed Sample.post_without_time = Raise TypeError
  /\ parse_feed (Tag "div" [] [Sample.time; Sample.date]) = Raise AttributeError.
Proof.
  split.
  - apply (proj1 (parse_feed_failures Sample.post_without_time
                    ltac:(vm_compute; constructor)
                    ltac:(intros reply H; vm_compute in H; discriminate)
                    ltac:(intros preview H; vm_compute in H; discriminate))).
    vm_compute; reflexivity.
  - apply (proj2 (proj2 (proj2 (proj2
             (parse_feed_failures (Tag "div" [] [Sample.time; Sample.date])
                ltac:(vm_compute; constructor)
                ltac:(intros reply H; vm_compute in H; discriminate)
                ltac:(intros preview H; vm_compute in H; discriminate)))))).
    + intros [H|H]; vm_compute in H; discriminate.
    + vm_compute; reflexivity.
Defined.

(** ** The posts of a page *)

Lemma parse_each_Ok (feed_tags : list Node) :
  forall posts,
    parse_each feed_tags = Ok posts <->
    Forall2 (fun feed_tag f => parse_feed feed_tag = Ok f) feed_tags posts.
Proof.
  induction feed_tags as [|x rest IH]; intros posts; cbn [parse_each].
  - split.
    + intros [= <-]. constructor.
    + intros H. inversion H. reflexivity.
  - rewrite bind_Ok. split.
    + intros (f & Hf & H). apply bind_Ok in H as (fs & Hfs & [= <-]).
      constructor; [exact Hf | now apply IH].
    + intros H. inversion H as [|? f ? fs Hf Hfs]; subst.
      exists f. split; [exact Hf|]. apply bind_Ok.
      exists fs. split; [now apply IH | reflexivity].
Qed.

Lemma parse_each_Raise (feed_tags : list Node) (e : exn) :
  parse_each feed_tags = Raise e <->
  exists before feed_tag after,
    feed_tags = (before ++ feed_tag :: after)%list
    /\ Forall (fun x => exists f, parse_feed x = Ok f) before
    /\ parse_feed feed_tag = Raise e.
Proof.
  induction feed_tags as [|x rest IH]; cbn [parse_each].
  - split; [discriminate|].
    intros (before & c & after & H & _). destruct before; discriminate.
  - destruct (parse_feed x) as [f|e'] eqn:Hx; cbn [bind].
    + destruct (parse_each rest) as [fs|e'] eqn:Hrest; cbn [bind].
      * split; [discriminate|].
        intros (before & c & after & Heq & Hall & Hc).
        destruct before as [|y before]; cbn [app] in Heq; injection Heq as -> ->.
        -- congruence.
        -- assert (Ok fs = Raise e) as Habs; [|discriminate].
           apply IH. inversion Hall; subst.
           exists before, c, after. auto.
      * split.
        -- intros [= ->]. destruct (proj1 IH eq_refl)
             as (before & c & after & -> & Hall & Hc).
           exists (x :: before), c, after. split; [reflexivity|].
           split; [constructor; eauto | exact Hc].
        -- intros (before & c & after & Heq & Hall & Hc).
           destruct before as [|y before]; cbn [app] in Heq; injection Heq as -> ->.
           ++ congruence.
           ++ apply IH. inversion Hall; subst.
              exists before, c, after. auto.
    + split.
      * intros [= ->]. exists [], x, rest. auto.
      * intros (before & c & after & Heq & Hall & Hc).
        destruct before as [|y before]; cbn [app] in Heq; injection Heq as -> ->.
        -- congruence.
        -- inversion Hall as [|? ? (f & Hf) _]; subst. congruence.
Qed.

(** X6: [parse_feeds] returns one post per container of class
    [tgme_widget_message_wrap], in document order: the list it returns is
    the list of the results of [parse_feed] on the containers, none left
    out and none added. *)
Theorem parse_feeds_in_document_order (soup : Node) (posts : list Feed) :
  parse_feeds soup = Ok posts <->
  Forall2 (fun feed_tag f => parse_feed feed_tag = Ok f)
    (Soup.find_all soup "div" [("class", "tgme_widget_message_wrap")]) posts.
Proof. apply parse_each_Ok. Qed.

Lemma parse_feeds_in_document_order_witness :
  Forall2 (fun feed_tag f => parse_feed feed_tag = Ok f)
    (Soup.find_all Sample.page "div" [("class", "tgme_widget_message_wrap")])
    [Sample.post_feed].
Proof.
  apply (proj1 (parse_feeds_in_document_order Sample.page [Sample.post_feed])).
  vm_compute; reflexivity.
Defined.

(** X7: [parse_feeds] raises exactly the exception of the first container,
    in document order, on which [parse_feed] raises; the posts before it
    are lost with it. *)
Theorem parse_feeds_first_failure (soup : Node) (e : exn) :
  parse_feeds soup = Raise e <->
  exists before feed_tag after,
    Soup.find_all soup "div" [("class", "tgme_widget_message_wrap")]
    = (before ++ feed_tag :: after)%list
    /\ Forall (fun x => exists f, parse_feed x = Ok f) before
    /\ parse_feed feed_tag = Raise e.
Proof. apply parse_each_Raise. Qed.

Lemma parse_feeds_first_failure_witness :
  exists before feed_tag after,
    Soup.find_all Sample.page_without_time "div"
      [("class", "tgme_widget_message_wrap")]
    = (before ++ feed_tag :: after)%list
    /\ Forall (fun x => exists f, parse_feed x = Ok f) before
    /\ parse_feed feed_tag = Raise TypeError.
Proof.
  apply (proj1 (parse_feeds_first_failure Sample.page_without_time TypeError)).
  vm_compute; reflexivity.
Defined.

(** ** Replies and previews that cannot be read *)

(** X8: [parse_reply] raises [AttributeError] when the author-name span is
    missing, or else when the reply-text node is missing, and
    [KeyError: 'href'] when both are there and the anchor has no [href]. *)
Theorem parse_reply_failures (reply : Node) :
  (Soup.find reply "span" [("class", "tgme_widget_message_author_name")] = None ->
   parse_reply reply = Raise AttributeError)
  /\ (Soup.find reply "span" [("class", "tgme_widget_message_author_name")] <> None ->
      Soup.find reply "div" [("class", "js-message_reply_text")] = None ->
      parse_reply reply = Raise AttributeError)
  /\ (Soup.find reply "span" [("class", "tgme_widget_message_author_name")] <> None ->
      Soup.find reply "div" [("class", "js-message_reply_text")] <> None ->
      Soup.get reply "href" = None ->
      parse_reply reply = Raise (KeyError "href")).
Proof.
  unfold parse_reply. split; [|split].
  - intros ->. reflexivity.
  - intros Ha ->.
    destruct (Soup.find reply "span" [("class", "tgme_widget_message_author_name")]);
      [reflexivity | now elim Ha].
  - intros Ha Ht Hh.
    destruct (Soup.find reply "span" [("class", "tgme_widget_message_author_name")])
      as [a|] eqn:Ea; [|now elim Ha].
    destruct (Soup.find reply "div" [("class", "js-message_reply_text")]);
      [|now elim Ht].
    cbn [Soup.decode_contents_opt bind].
    destruct reply as [s|c s|name ats cs]; [discriminate Ea..|].
    cbn [Soup.get] in Hh.
    rewrite (SoupFacts.getitem_Tag_None name ats cs "href" Hh). reflexivity.
Qed.

Lemma parse_reply_failures_witness :
  parse_reply (Tag "a" [("href", "https://t.me/chan/1")] []) = Raise AttributeError
  /\ parse_reply
       (Tag "a" [("href", "https://t.me/chan/1")]
          [Tag "span" [("class", "tgme_widget_message_author_name")] [Text "Bob"]])
     = Raise AttributeError
  /\ parse_reply
       (Tag "a" []
          [Tag "span" [("class", "tgme_widget_message_author_name")] [Text "Bob"];
           Tag "div" [("class", "js-message_reply_text")] [Text "hi"]])
     = Raise (KeyError "href").
Proof.
  split; [|split].
  - apply (proj1 (parse_reply_failures
                    (Tag "a" [("href", "https://t.me/chan/1")] []))).
    vm_compute; reflexivity.
  - apply (proj1 (proj2 (parse_reply_failures
             (Tag "a" [("href", "https://t.me/chan/1")]
                [Tag "span" [("class", "tgme_widget_message_author_name")]
                   [Text "Bob"]])))).
    + vm_compute; discriminate.
    + vm_compute; reflexivity.
  - apply (proj2 (proj2 (parse_reply_failures
             (Tag "a" []
                [Tag "span" [("class", "tgme_widget_message_author_name")]
                   [Text "Bob"];
                 Tag "div" [("class", "js-message_reply_text")] [Text "hi"]])))).
    + vm_compute; discriminate.
    + vm_compute; discriminate.
    + reflexivity.
Defined.

(** X9: for a link preview with a site name and an [href], whose image, if
    any, has a [style], [parse_preview] returns a [blockquote] with the
    site name in bold, then a bold link to the [href] around the title,
    or around the site name when there is no title, then the description
    in a paragraph, or nothing when there is none, then the image text, or
    nothing when there is no image. *)
Theorem parse_preview_fragment (preview site : Node) (href : string) :
  Soup.find preview "div" [("class", "link_preview_site_name")] = Some site ->
  Soup.get preview "href" = Some href ->
  (forall image,
      Soup.find preview "i" [("class", "link_preview_image")] = Some image ->
      styled image) ->
  exists image_text,
    match Soup.find preview "i" [("class", "link_preview_image")] with
    | Some image => parse_image image = Ok image_text
    | None => image_text = ""
    end
    /\ parse_preview preview
       = Ok ("<blockquote>" ++ nl
             ++ "        <b>" ++ Soup.decode_contents site ++ "</b><br>" ++ nl
             ++ "        <b>" ++ "<a href=" ++ dq ++ href ++ dq ++ ">"
             ++ match Soup.find preview "div" [("class", "link_preview_title")] with
                | Some t => Soup.decode_contents t
                | None => Soup.decode_contents site
                end
             ++ "</a>" ++ "</b><br>" ++ nl
             ++ "        "
             ++ match Soup.find preview "div"
                        [("class", "link_preview_description")] with
                | Some d => "<p>" ++ Soup.decode_contents d ++ "</p>"
                | None => ""
                end
             ++ nl
             ++ "        " ++ image_text ++ nl
             ++ "    </blockquote>").
Proof.
  intros Hsite Hh Himg. apply SoupFacts.getitem_Ok in Hh.
  unfold parse_preview. rewrite Hsite, Hh.
  cbn [Soup.decode_contents_opt bind].
  assert (forall site_name link_text description_text image_text,
             preview_block site_name
               ("<a href=" ++ dq ++ href ++ dq ++ ">" ++ link_text ++ "</a>")
               description_text image_text
             = "<blockquote>" ++ nl
               ++ "        <b>" ++ site_name ++ "</b><br>" ++ nl
               ++ "        <b>" ++ "<a href=" ++ dq ++ href ++ dq ++ ">"
               ++ link_text ++ "</a>" ++ "</b><br>" ++ nl
               ++ "        " ++ description_text ++ nl
               ++ "        " ++ image_text ++ nl
               ++ "    </blockquote>") as Hblock.
  { intros. unfold preview_block.
    repeat (rewrite ?StrFacts.append_assoc; cbn [append]). reflexivity. }
  destruct (Soup.find preview "i" [("class", "link_preview_image")]) as [image|].
  - destruct (proj2 (parse_image_returns image) (Himg image eq_refl)) as (t & Ht).
    exists t. split; [exact Ht|]. rewrite Ht. cbn [bind].
    now rewrite Hblock.
  - exists "". split; [reflexivity|]. cbn [bind]. now rewrite Hblock.
Qed.

Lemma parse_preview_fragment_witness :
  parse_preview Sample.rich_preview
  = Ok ("<blockquote>" ++ nl ++ "        <b>X</b><br>" ++ nl
        ++ "        <b><a href=" ++ dq ++ "https://x/" ++ dq
        ++ ">Why</a></b><br>" ++ nl ++ "        <p>Because<br/></p>" ++ nl
        ++ "        <img src=" ++ dq ++ "https://x/p.png" ++ dq
        ++ " referrerpolicy=" ++ dq ++ "no-referrer" ++ dq ++ ">" ++ nl
        ++ "    </blockquote>")
  /\ parse_preview Sample.preview
     = Ok ("<blockquote>" ++ nl ++ "        <b>X</b><br>" ++ nl
           ++ "        <b><a href=" ++ dq ++ "https://x/" ++ dq
           ++ ">Why</a></b><br>" ++ nl ++ "        " ++ nl ++ "        "
           ++ nl ++ "    </blockquote>").
Proof.
  split.
  - destruct (parse_preview_fragment Sample.rich_preview
                (Tag "div" [("class", "link_preview_site_name")] [Text "X"])
                "https://x/") as (image_text & Hi & H).
    + vm_compute; reflexivity.
    + reflexivity.
    + intros image Hf. vm_compute in Hf. injection Hf as <-.
      vm_compute; discriminate.
    + rewrite H. vm_compute in Hi. injection Hi as <-. vm_compute; reflexivity.
  - destruct (parse_preview_fragment Sample.preview
                (Tag "div" [("class", "link_preview_site_name")] [Text "X"])
                "https://x/") as (image_text & Hi & H).
    + vm_compute; reflexivity.
    + reflexivity.
    + intros image Hf. vm_compute in Hf. discriminate.
    + rewrite H. vm_compute in Hi. subst image_text. vm_compute; reflexivity.
Defined.

(** X10: [parse_preview] raises [AttributeError] when the site name is
    missing; or else [KeyError: 'style'] when the image has no [style];
    or else [KeyError: 'href'] when the anchor has no [href]. *)
Theorem parse_preview_failures (preview : Node) :
  (Soup.find preview "div" [("class", "link_preview_site_name")] = None ->
   parse_preview preview = Raise AttributeError)
  /\ (forall image,
        Soup.find preview "div" [("class", "link_preview_site_name")] <> None ->
        Soup.find preview "i" [("class", "link_preview_image")] = Some image ->
        Soup.get image "style" = None ->
        parse_preview preview = Raise (KeyError "style"))
  /\ (Soup.find preview "div" [("class", "link_preview_site_name")] <> None ->
      (forall image,
          Soup.find preview "i" [("class", "link_preview_image")] = Some image ->
          styled image) ->
      Soup.get preview "href" = None ->
      parse_preview preview = Raise (KeyError "href")).
Proof.
  unfold parse_preview. split; [|split].
  - intros ->. reflexivity.
  - intros image Hsite Hi Hs.
    destruct (Soup.find preview "div" [("class", "link_preview_site_name")]);
      [|now elim Hsite].
    rewrite Hi. cbn [Soup.decode_contents_opt bind].
    destruct (SoupFacts.find_Tag _ _ _ _ Hi) as (cs & ats & ->).
    cbn [Soup.get] in Hs. now rewrite (parse_image_unstyled "i" ats cs Hs).
  - intros Hsite Himg Hh.
    destruct (Soup.find preview "div" [("class", "link_preview_site_name")])
      as [site|] eqn:Es; [|now elim Hsite].
    cbn [Soup.decode_contents_opt bind].
    destruct preview as [s|c s|name ats cs]; [discriminate Es..|].
    cbn [Soup.get] in Hh.
    rewrite (SoupFacts.getitem_Tag_None name ats cs "href" Hh).
    destruct (Soup.find (Tag name ats cs) "i" [("class", "link_preview_image")])
      as [image|].
    + destruct (proj2 (parse_image_returns image) (Himg image eq_refl)) as (t & ->).
      reflexivity.
    + reflexivity.
Qed.

Lemma parse_preview_failures_witness :
  parse_preview (Tag "a" [("href", "https://x/")] []) = Raise AttributeError
  /\ parse_preview
       (Tag "a" [("href", "https://x/")]
          [Tag "div" [("class", "link_preview_site_name")] [Text "X"];
           Tag "i" [("class", "link_preview_image")] []])
     = Raise (KeyError "style")
  /\ parse_preview
       (Tag "a" [] [Tag "div" [("class", "link_preview_site_name")] [Text "X"]])
     = Raise (KeyError "href").
Proof.
  split; [|split].
  - apply (proj1 (parse_preview_failures (Tag "a" [("href", "https://x/")] []))).
    vm_compute; reflexivity.
  - apply (proj1 (proj2 (parse_preview_failures
             (Tag "a" [("href", "https://x/")]
                [Tag "div" [("class", "link_preview_site_name")] [Text "X"];
                 Tag "i" [("class", "link_preview_image")] []])))
             (Tag "i" [("class", "link_preview_image")] [])).
    + vm_compute; discriminate.
    + vm_compute; reflexivity.
    + reflexivity.
  - apply (proj2 (proj2 (parse_preview_failures
             (Tag "a" []
                [Tag "div" [("class", "link_preview_site_name")] [Text "X"]])))).
    + vm_compute; discriminate.
    + intros image Hf. vm_compute in Hf. discriminate.
    + reflexivity.
Defined.

(** ** The headers of a channel *)

(** X11: the headers returned by [parse_rss] carry the [content] of the
    first [og:title] meta tag and of the first [og:description] meta tag as
    they are, the clock reading, and the posts they were given, unchanged
    and in the same order. *)
Theorem parse_rss_fields (now : string) (soup : Node) (url : string)
  (posts : list Feed) (rss : Rss) :
  parse_rss now soup url posts = Ok rss ->
  exists meta_title meta_description,
    Soup.find soup "meta" [("property", "og:title")] = Some meta_title
    /\ Soup.get meta_title "content" = Some (rss_title rss)
    /\ Soup.find soup "meta" [("property", "og:description")] = Some meta_description
    /\ Soup.get meta_description "content" = Some (rss_description rss)
    /\ last_build_date rss = now
    /\ feeds rss = posts.
Proof.
  unfold parse_rss. intros H.
  apply bind_Ok in H as (t & Ht & H). apply bind_Ok in H as (d & Hd & H).
  injection H as <-. cbn [rss_title rss_description last_build_date feeds].
  destruct (Soup.find soup "meta" [("property", "og:title")]) as [mt|];
    [|discriminate].
  destruct (Soup.find soup "meta" [("property", "og:description")]) as [md|];
    [|discriminate].
  cbn [Soup.getitem_opt] in Ht, Hd.
  apply SoupFacts.getitem_Ok in Ht. apply SoupFacts.getitem_Ok in Hd.
  exists mt, md. auto 10.
Qed.

Lemma parse_rss_fields_witness :
  exists rss,
    parse_rss "now" Sample.page "https://t.me/s/chan" [Sample.post_feed] = Ok rss
    /\ rss_title rss = "Chan" /\ rss_description rss = "A channel"
    /\ last_build_date rss = "now" /\ feeds rss = [Sample.post_feed].
Proof.
  eexists. split; [vm_compute; reflexivity|].
  destruct (parse_rss_fields "now" Sample.page "https://t.me/s/chan"
              [Sample.post_feed] _ eq_refl)
    as (mt & md & Hmt & Ht & Hmd & Hd & Hn & Hf).
  vm_compute; auto.
Defined.

(** X12: [parse_rss] raises [TypeError] when the page has no [og:title]
    meta tag and [KeyError: 'content'] when that tag has no [content]; with
    a title, it raises in the same way for [og:description]. *)
Theorem parse_rss_failures (now : string) (soup : Node) (url : string)
  (posts : list Feed) :
  (Soup.find soup "meta" [("property", "og:title")] = None ->
   parse_rss now soup url posts = Raise TypeError)
  /\ (forall meta_title,
        Soup.find soup "meta" [("property", "og:title")] = Some meta_title ->
        Soup.get meta_title "content" = None ->
        parse_rss now soup url posts = Raise (KeyError "content"))
  /\ (forall meta_title,
        Soup.find soup "meta" [("property", "og:title")] = Some meta_title ->
        Soup.get meta_title "content" <> None ->
        Soup.find soup "meta" [("property", "og:description")] = None ->
        parse_rss now soup url posts = Raise TypeError)
  /\ (forall meta_title meta_description,
        Soup.find soup "meta" [("property", "og:title")] = Some meta_title ->
        Soup.get meta_title "content" <> None ->
        Soup.find soup "meta" [("property", "og:description")]
        = Some meta_description ->
        Soup.get meta_description "content" = None ->
        parse_rss now soup url posts = Raise (KeyError "content")).
Proof.
  unfold parse_rss. split; [|split; [|split]].
  - intros ->. reflexivity.
  - intros mt Hmt Hc. rewrite Hmt.
    destruct (SoupFacts.find_Tag _ _ _ _ Hmt) as (cs & ats & ->).
    cbn [Soup.getitem_opt Soup.get] in *.
    now rewrite (SoupFacts.getitem_Tag_None "meta" ats cs "content" Hc).
  - intros mt Hmt Hc ->. rewrite Hmt. cbn [Soup.getitem_opt].
    destruct (proj2 (getitem_returns mt "content") Hc) as (t & ->). reflexivity.
  - intros mt md Hmt Hc Hmd Hd. rewrite Hmt, Hmd. cbn [Soup.getitem_opt].
    destruct (proj2 (getitem_returns mt "content") Hc) as (t & ->).
    destruct (SoupFacts.find_Tag _ _ _ _ Hmd) as (cs & ats & ->).
    cbn [Soup.get] in Hd. cbn [bind].
    now rewrite (SoupFacts.getitem_Tag_None "meta" ats cs "content" Hd).
Qed.

Lemma parse_rss_failures_witness :
  parse_rss "now" (Tag "[document]" [] []) "https://t.me/s/chan" [] = Raise TypeError
  /\ parse_rss "now"
       (Tag "[document]" [] [Tag "meta" [("property", "og:title")] []])
       "https://t.me/s/chan" []
     = Raise (KeyError "content")
  /\ parse_rss "now"
       (Tag "[document]" []
          [Tag "meta" [("property", "og:title"); ("content", "Chan")] []])
       "https://t.me/s/chan" []
     = Raise TypeError
  /\ parse_rss "now"
       (Tag "[document]" []
          [Tag "meta" [("property", "og:title"); ("content", "Chan")] [];
           Tag "meta" [("property", "og:description")] []])
       "https://t.me/s/chan" []
     = Raise (KeyError "content").
Proof.
  split; [|split; [|split]].
  - apply (proj1 (parse_rss_failures "now" (Tag "[document]" [] [])
                    "https://t.me/s/chan" [])).
    vm_compute; reflexivity.
  - apply (proj1 (proj2 (parse_rss_failures "now"
             (Tag "[document]" [] [Tag "meta" [("property", "og:title")] []])
             "https://t.me/s/chan" []))
             (Tag "meta" [("property", "og:title")] []));
      vm_compute; reflexivity.
  - apply (proj1 (proj2 (proj2 (parse_rss_failures "now"
             (Tag "[document]" []
                [Tag "meta" [("property", "og:title"); ("content", "Chan")] []])
             "https://t.me/s/chan" [])))
             (Tag "meta" [("property", "og:title"); ("content", "Chan")] [])).
    + vm_compute; reflexivity.
    + vm_compute; discriminate.
    + vm_compute; reflexivity.
  - apply (proj2 (proj2 (proj2 (parse_rss_failures "now"
             (Tag "[document]" []
                [Tag "meta" [("property", "og:title"); ("content", "Chan")] [];
                 Tag "meta" [("property", "og:description")] []])
             "https://t.me/s/chan" [])))
             (Tag "meta" [("property", "og:title"); ("content", "Chan")] [])
             (Tag "meta" [("property", "og:description")] [])).
    + vm_compute; reflexivity.
    + vm_compute; discriminate.
    + vm_compute; reflexivity.
    + vm_compute; reflexivity.
Defined.

Section Link.
Import Str StrFacts.

Lemma contains_cons_false (sub : string) (c : ascii) (s : string) :
  contains sub (String c s) = false ->
  strip_prefix sub (String c s) = None /\ contains sub s = false.
Proof.
  cbn [contains]. destruct (strip_prefix sub (String c s)); [discriminate | auto].
Qed.

(** A text without occurrence of [old] is left as it is. *)
Lemma replace_absent (old new s : string) :
  contains old s = false -> replace old new s = s.
Proof.
  induction s as [|c s IH]; [reflexivity|].
  intros H. apply contains_cons_false in H as [Hp Hc].
  rewrite (replace_skip old new c s Hp). now rewrite IH.
Qed.

Lemma replace_base_url (channel : string) :
  contains "t.me/s/" channel = false ->
  replace "t.me/s/" "t.me/" (BASE_URL ++ channel) = "https://t.me/" ++ channel.
Proof.
  intros H. unfold BASE_URL. cbn [append].
  do 8 (rewrite replace_skip by reflexivity).
  change (String "t" (String "." (String "m" (String "e" (String "/"
            (String "s" (String "/" channel)))))))
    with ("t.me/s/" ++ channel).
  rewrite replace_hit by discriminate. now rewrite replace_absent.
Qed.

End Link.

(** X13: for the URL of a channel, [BASE_URL] followed by a channel name
    that does not hold [t.me/s/], the link of the headers is
    [https://t.me/] followed by the channel name; and a URL that does not
    hold [t.me/s/] at all is kept as it is. *)
Theorem rss_link_of_channel (now : string) (soup : Node) (posts : list Feed)
  (rss : Rss) (channel url : string) :
  (Str.contains "t.me/s/" channel = false ->
   parse_rss now soup (BASE_URL ++ channel) posts = Ok rss ->
   rss_link rss = "https://t.me/" ++ channel)
  /\ (Str.contains "t.me/s/" url = false ->
      parse_rss now soup url posts = Ok rss ->
      rss_link rss = url).
Proof.
  unfold parse_rss. split; intros Hc H;
    apply bind_Ok in H as (t & _ & H); apply bind_Ok in H as (d & _ & H);
    injection H as <-; cbn [rss_link].
  - now apply replace_base_url.
  - now apply replace_absent.
Qed.

Lemma rss_link_of_channel_witness :
  exists rss rss',
    parse_rss "now" Sample.page (BASE_URL ++ "exp_fest") [] = Ok rss
    /\ rss_link rss = "https://t.me/" ++ "exp_fest"
    /\ parse_rss "now" Sample.page "https://example.org/x" [] = Ok rss'
    /\ rss_link rss' = "https://example.org/x".
Proof.
  eexists. eexists. split; [vm_compute; reflexivity|]. split; [|split].
  - apply (proj1 (rss_link_of_channel "now" Sample.page [] _ "exp_fest" ""));
      vm_compute; reflexivity.
  - vm_compute; reflexivity.
  - apply (proj2 (rss_link_of_channel "now" Sample.page [] _ ""
                    "https://example.org/x"));
      vm_compute; reflexivity.
Defined.

(** ** One channel *)




(** X15: the exception of [get_rss_feed] is [RuntimeError] when the status
    is not 200, whatever the page; else the exception of [parse_feeds],
    also when the meta tags are missing too; else the exception of
    [parse_rss]. *)
Theorem get_rss_feed_failures
  (parse_content : string -> Node) (load_template : string -> result (Rss -> result string))
  (urljoin : string -> string -> string) (response : string -> option string)
  (now channel : string) :
  (response (urljoin BASE_URL channel) = None ->
   get_rss_feed parse_content load_template urljoin response now channel
   = Raise RuntimeError)
  /\ (forall body e,
        response (urljoin BASE_URL channel) = Some body ->
        parse_feeds (parse_content body) = Raise e ->
        get_rss_feed parse_content load_template urljoin response now channel
        = Raise e)
  /\ (forall body posts e,
        response (urljoin BASE_URL channel) = Some body ->
        parse_feeds (parse_content body) = Ok posts ->
        parse_rss now (parse_content body) (urljoin BASE_URL channel) posts
        = Raise e ->
        get_rss_feed parse_content load_template urljoin response now channel
        = Raise e).
Proof.
  unfold get_rss_feed, get_channel_content. split; [|split].
  - intros ->. reflexivity.
  - intros body e Hr Hp. rewrite Hr. cbn [bind]. rewrite Hp. reflexivity.
  - intros body posts e Hr Hp Hh. rewrite Hr. cbn [bind]. rewrite Hp.
    cbn [bind]. rewrite Hh. reflexivity.
Qed.

Lemma get_rss_feed_failures_witness :
  get_rss_feed (fun _ => Sample.page) (fun _ => Ok (fun _ => Ok "doc")) append (fun _ => None)
    "now" "chan" = Raise RuntimeError
  /\ get_rss_feed (fun _ => Tag "[document]" [] [Sample.post_without_time])
       (fun _ => Ok (fun _ => Ok "doc")) append (fun _ => Some "") "now" "chan" = Raise TypeError
  /\ get_rss_feed (fun _ => Tag "[document]" [] [])
       (fun _ => Ok (fun _ => Ok "doc")) append (fun _ => Some "") "now" "chan" = Raise TypeError.
Proof.
  split; [|split].
  - apply (proj1 (get_rss_feed_failures (fun _ => Sample.page) (fun _ => Ok (fun _ => Ok "doc"))
                    append (fun _ => None) "now" "chan")).
    reflexivity.
  - apply (proj1 (proj2 (get_rss_feed_failures
             (fun _ => Tag "[document]" [] [Sample.post_without_time])
             (fun _ => Ok (fun _ => Ok "doc")) append (fun _ => Some "") "now" "chan")) "").
    + reflexivity.
    + vm_compute; reflexivity.
  - apply (proj2 (proj2 (get_rss_feed_failures
             (fun _ => Tag "[document]" [] [])
             (fun _ => Ok (fun _ => Ok "doc")) append (fun _ => Some "") "now" "chan")) "" []).
    + reflexivity.
    + vm_compute; reflexivity.
    + vm_compute; reflexivity.
Defined.

(** ** The batch *)

Section MainFacts.
Import StrFacts.

Variable parse_content : string -> Node.
Variable load_template : string -> result (Rss -> result string).
Variable urljoin : string -> string -> string.
Variable response : string -> option string.
Variable clock : nat -> string.

Local Abbreviation feed_at i channel :=
  (get_rss_feed parse_content load_template urljoin response (clock i) channel).
Local Abbreviation run :=
  (run_channels parse_content load_template urljoin response clock).

Lemma append_inj_l (p a b : string) : p ++ a = p ++ b -> a = b.
Proof. induction p as [|c p IH]; cbn [append]; [auto | intros [= H]; auto]. Qed.

Lemma append_inj_r (s : string) :
  forall a b, a ++ s = b ++ s -> a = b.
Proof.
  assert (forall a b, String.length a = String.length b -> a ++ s = b ++ s -> a = b)
    as Hlen.
  { induction a as [|c a IH]; destruct b as [|c' b]; cbn [append String.length];
      try discriminate; [reflexivity|].
    intros [= Hl] [= -> H]. f_equal. now apply IH. }
  intros a b H. apply Hlen; [|exact H].
  apply (f_equal String.length) in H. rewrite !length_append in H. lia.
Qed.

Lemma out_path_inj (a b : string) : out_path a = out_path b -> a = b.
Proof.
  unfold out_path. intros H. apply append_inj_l in H.
  now apply append_inj_r in H.
Qed.

Lemma write_file_same (path content : string) (fs : files) :
  write_file path content fs path = Some content.
Proof. unfold write_file. now rewrite String.eqb_refl. Qed.

Lemma write_file_other (path content : string) (fs : files) (p : string) :
  p <> path -> write_file path content fs p = fs p.
Proof.
  intros H. unfold write_file.
  destruct (String.eqb_spec p path); [contradiction | reflexivity].
Qed.

Lemma run_untouched (todo : list string) :
  forall i fs path,
    (forall c, In c todo -> path <> out_path c) ->
    fst (run i todo fs) path = fs path.
Proof.
  induction todo as [|a rest IH]; intros i fs path H; cbn [run_channels].
  - reflexivity.
  - destruct (feed_at i a) as [doc|e]; [|reflexivity].
    rewrite IH by (intros c Hc; apply H; now right).
    apply write_file_other, H. now left.
Qed.

Lemma run_written (todo : list string) :
  forall i fs k c doc,
    NoDup todo ->
    nth_error todo k = Some c ->
    (forall j c', j < k -> nth_error todo j = Some c' ->
                  exists d, feed_at (i + j) c' = Ok d) ->
    feed_at (i + k) c = Ok doc ->
    fst (run i todo fs) (out_path c) = Some doc.
Proof.
  induction todo as [|a rest IH]; intros i fs k c doc Hnd Hk Hbefore Hc.
  - destruct k; discriminate.
  - inversion Hnd as [|? ? Ha Hrest]; subst. cbn [run_channels].
    destruct k as [|k].
    + injection Hk as ->. rewrite Nat.add_0_r in Hc. rewrite Hc.
      rewrite run_untouched.
      * apply write_file_same.
      * intros c' Hin E. apply out_path_inj in E. subst c'. contradiction.
    + destruct (Hbefore 0 a) as (d & Hd); [lia | reflexivity |].
      rewrite Nat.add_0_r in Hd. rewrite Hd.
      apply (IH (S i) _ k c doc Hrest Hk).
      * intros j c' Hj Hn. destruct (Hbefore (S j) c') as (d' & Hd');
          [lia | exact Hn |].
        exists d'. now rewrite Nat.add_succ_comm.
      * now rewrite Nat.add_succ_comm.
Qed.

Lemma run_ends (todo : list string) :
  forall i fs,
    (forall k c, nth_error todo k = Some c -> exists d, feed_at (i + k) c = Ok d) ->
    snd (run i todo fs) = Ok tt.
Proof.
  induction todo as [|a rest IH]; intros i fs H; cbn [run_channels].
  - reflexivity.
  - destruct (H 0 a eq_refl) as (d & Hd). rewrite Nat.add_0_r in Hd. rewrite Hd.
    apply IH. intros k c Hk. destruct (H (S k) c Hk) as (d' & Hd').
    exists d'. now rewrite Nat.add_succ_comm.
Qed.

Lemma run_aborts (todo : list string) :
  forall i fs k c e,
    NoDup todo ->
    nth_error todo k = Some c ->
    (forall j c', j < k -> nth_error todo j = Some c' ->
                  exists d, feed_at (i + j) c' = Ok d) ->
    feed_at (i + k) c = Raise e ->
    snd (run i todo fs) = Raise e
    /\ (forall j c', k <= j -> nth_error todo j = Some c' ->
                     fst (run i todo fs) (out_path c') = fs (out_path c')).
Proof.
  induction todo as [|a rest IH]; intros i fs k c e Hnd Hk Hbefore Hc.
  - destruct k; discriminate.
  - inversion Hnd as [|? ? Ha Hrest]; subst. cbn [run_channels].
    destruct k as [|k].
    + injection Hk as ->. rewrite Nat.add_0_r in Hc. rewrite Hc.
      split; reflexivity.
    + destruct (Hbefore 0 a) as (d & Hd); [lia | reflexivity |].
      rewrite Nat.add_0_r in Hd. rewrite Hd.
      destruct (IH (S i) (write_file (out_path a) d fs) k c e Hrest Hk)
        as [Hres Hfs].
      * intros j c' Hj Hn. destruct (Hbefore (S j) c') as (d' & Hd');
          [lia | exact Hn |].
        exists d'. now rewrite Nat.add_succ_comm.
      * now rewrite Nat.add_succ_comm.
      * split; [exact Hres|].
        intros j c' Hj Hn. destruct j as [|j]; [lia|].
        cbn [nth_error] in Hn. rewrite (Hfs j c') by (lia || exact Hn).
        apply write_file_other. intros E. apply out_path_inj in E. subst c'.
        apply Ha. eapply nth_error_In, Hn.
Qed.

Lemma channels_NoDup : NoDup channels.
Proof.
  unfold channels.
  repeat (constructor; [cbn [In]; intuition discriminate|]). constructor.
Qed.

End MainFacts.

(** X16: when [get_rss_feed] returns for every channel, [main] ends
    without exception; the file [gh-pages/<channel>.rdf] of each channel
    then holds the document of that channel, and every other file is as it
    was. *)
Theorem main_writes_every_channel
  (parse_content : string -> Node) (load_template : string -> result (Rss -> result string))
  (urljoin : string -> string -> string) (response : string -> option string)
  (clock : nat -> string) (fs : files) :
  (forall k channel,
      nth_error channels k = Some channel ->
      exists doc,
        get_rss_feed parse_content load_template urljoin response (clock k) channel
        = Ok doc) ->
  snd (main parse_content load_template urljoin response clock fs) = Ok tt
  /\ (forall k channel doc,
        nth_error channels k = Some channel ->
        get_rss_feed parse_content load_template urljoin response (clock k) channel
        = Ok doc ->
        fst (main parse_content load_template urljoin response clock fs)
            (out_path channel) = Some doc)
  /\ (forall path,
        (forall channel, In channel channels -> path <> out_path channel) ->
        fst (main parse_content load_template urljoin response clock fs) path
        = fs path).
Proof.
  intros H. unfold main. split; [|split].
  - apply run_ends. exact H.
  - intros k channel doc Hk Hdoc.
    apply (run_written _ _ _ _ _ channels 0 fs k channel doc channels_NoDup Hk).
    + intros j c' _ Hj. exact (H j c' Hj).
    + exact Hdoc.
  - intros path Hp. now apply run_untouched.
Qed.

Lemma main_writes_every_channel_witness :
  snd (main (fun _ => Sample.page) (fun _ => Ok (fun rss => Ok (rss_link rss))) append
         (fun _ => Some "") (fun _ => "now") (fun _ => None)) = Ok tt
  /\ fst (main (fun _ => Sample.page) (fun _ => Ok (fun rss => Ok (rss_link rss))) append
            (fun _ => Some "") (fun _ => "now") (fun _ => None))
         "gh-pages/graphML.rdf" = Some "https://t.me/graphML".
Proof.
  destruct (main_writes_every_channel (fun _ => Sample.page)
              (fun _ => Ok (fun rss => Ok (rss_link rss))) append (fun _ => Some "")
              (fun _ => "now") (fun _ => None)) as (Hend & Hfiles & _).
  - intros k channel _. eexists. reflexivity.
  - split; [exact Hend|].
    apply (Hfiles 9 "graphML"); vm_compute; reflexivity.
Defined.

(** X17: when [get_rss_feed] raises for a channel and returned for the
    channels before it, [main] raises that exception; the files of the
    channels before it hold their documents, and the files of that channel
    and of the channels after it are as they were. *)
Theorem main_stops_at_first_failure
  (parse_content : string -> Node) (load_template : string -> result (Rss -> result string))
  (urljoin : string -> string -> string) (response : string -> option string)
  (clock : nat -> string) (fs : files) (k : nat) (channel : string) (e : exn) :
  nth_error channels k = Some channel ->
  (forall j c,
      j < k -> nth_error channels j = Some c ->
      exists doc,
        get_rss_feed parse_content load_template urljoin response (clock j) c = Ok doc) ->
  get_rss_feed parse_content load_template urljoin response (clock k) channel = Raise e ->
  snd (main parse_content load_template urljoin response clock fs) = Raise e
  /\ (forall j c doc,
        j < k -> nth_error channels j = Some c ->
        get_rss_feed parse_content load_template urljoin response (clock j) c = Ok doc ->
        fst (main parse_content load_template urljoin response clock fs) (out_path c)
        = Some doc)
  /\ (forall j c,
        k <= j -> nth_error channels j = Some c ->
        fst (main parse_content load_template urljoin response clock fs) (out_path c)
        = fs (out_path c)).
Proof.
  intros Hk Hbefore He. unfold main.
  destruct (run_aborts parse_content load_template urljoin response clock
              channels 0 fs k channel e channels_NoDup Hk Hbefore He)
    as [Hres Hfs].
  split; [exact Hres|]. split; [|exact Hfs].
  intros j c doc Hj Hn Hdoc.
  apply (run_written _ _ _ _ _ channels 0 fs j c doc channels_NoDup Hn);
    [|exact Hdoc].
  intros i c' Hi Hn'. apply (Hbefore i c'); [lia | exact Hn'].
Qed.

Lemma main_stops_at_first_failure_witness :
  snd (main (fun _ => Sample.page) (fun _ => Ok (fun rss => Ok (rss_link rss))) append
         (fun url => if String.eqb url "https://t.me/s/cgevent" then None
                     else Some "")
         (fun _ => "now") (fun _ => None)) = Raise RuntimeError
  /\ fst (main (fun _ => Sample.page) (fun _ => Ok (fun rss => Ok (rss_link rss))) append
            (fun url => if String.eqb url "https://t.me/s/cgevent" then None
                        else Some "")
            (fun _ => "now") (fun _ => None))
         "gh-pages/reliable_ml.rdf" = Some "https://t.me/reliable_ml"
  /\ fst (main (fun _ => Sample.page) (fun _ => Ok (fun rss => Ok (rss_link rss))) append
            (fun url => if String.eqb url "https://t.me/s/cgevent" then None
                        else Some "")
            (fun _ => "now") (fun _ => None))
         "gh-pages/ai_newz.rdf" = None.
Proof.
  destruct (main_stops_at_first_failure (fun _ => Sample.page)
              (fun _ => Ok (fun rss => Ok (rss_link rss))) append
              (fun url => if String.eqb url "https://t.me/s/cgevent" then None
                          else Some "")
              (fun _ => "now") (fun _ => None) 2 "cgevent" RuntimeError)
    as (Hres & Hbefore & Hafter).
  - reflexivity.
  - intros j c Hj Hn. destruct j as [|[|j]]; [| |lia];
      injection Hn as <-; eexists; vm_compute; reflexivity.
  - vm_compute; reflexivity.
  - split; [exact Hres|]. split.
    + apply (Hbefore 1 "reliable_ml"); [lia | reflexivity | vm_compute; reflexivity].
    + apply (Hafter 3 "ai_newz"); [lia | reflexivity].
Defined.
